(** * yaserver: a static-file request handler

    A shallow embedding of [src/index.ts] and of the compiled artifact
    [out/index.js].  The handler is a closure over the server configuration
    ([rootDir], [useETag], [expires]); it probes the file system through
    four promise wrappers and answers through [res.writeHead] and [res.end].

    - JavaScript strings are [string]s (sequences of code units), buffers
      are [list byte].
    - The Node.js runtime the handler calls into ([path], [url], [crypto],
      [Date], [String.prototype.localeCompare]) is a record [Platform];
      the file system is a record [FileSystem] of the callbacks' results.
      Theorems quantify over both; [node] is Node.js on a POSIX system and
      [disk] a file system given by its tree, on which the handler is
      evaluated for concrete requests.
    - Effects are a trace of [event]s (file-system probes, console output,
      calls on the response object) with an exception channel. *)

From Stdlib Require Import ZArith Lia List Ascii String Sorted.
From Stdlib.Strings Require Import Byte.
From stdpp Require Import base option list strings gmap.

Open Scope string_scope.
Open Scope list_scope.
Open Scope Z_scope.

(** ** JavaScript values and string primitives *)

Definition nl : string := String "010"%char EmptyString.
Definition tab : string := String "009"%char EmptyString.
Definition dq : string := String "034"%char EmptyString.

Definition Buffer := list byte.

(** [Buffer.from(s)] *)
Definition Buffer_from (s : string) : Buffer := list_byte_of_string s.

(** [b.byteLength] *)
Definition byteLength (b : Buffer) : Z := Z.of_nat (List.length b).

(** Truthiness of a string: only the empty string is falsy. *)
Definition truthy (s : string) : bool :=
  match s with
  | EmptyString => false
  | String _ _ => true
  end.

(** Truthiness of [string | undefined] and [string | null]. *)
Definition truthy_opt (o : option string) : bool :=
  match o with
  | Some s => truthy s
  | None => false
  end.

(** Truthiness of a number (no NaN among the integers). *)
Definition truthy_num (n : Z) : bool := negb (n =? 0)%Z.

(** [o === s] for [o : string | undefined] *)
Definition strict_eq_opt (o : option string) (s : string) : bool :=
  match o with
  | Some t => String.eqb t s
  | None => false
  end.

(** [s.substr(0, n)] *)
Definition substr0 (s : string) (n : nat) : string := substring 0 n s.

(** [s.charAt(0)], the empty string when [s] is empty *)
Definition charAt0 (s : string) : string := substring 0 1 s.

(** [s.replace(/\\/g, '/')] *)
Fixpoint replace_backslashes (s : string) : string :=
  match s with
  | EmptyString => EmptyString
  | String c r =>
      String (if Ascii.eqb c "\"%char then "/"%char else c) (replace_backslashes r)
  end.

(** Template interpolation of [string | undefined]. *)
Definition interpolate_opt (o : option string) : string :=
  match o with
  | Some s => s
  | None => "undefined"
  end.

(** [a.sort(cmp)]: a stable sort; [x] stays in front of [y] when
    [cmp x y <= 0]. *)
Fixpoint sort_insert {A} (cmp : A -> A -> Z) (x : A) (l : list A) : list A :=
  match l with
  | [] => [x]
  | y :: r => if (cmp x y <=? 0)%Z then x :: y :: r else y :: sort_insert cmp x r
  end.

Definition array_sort {A} (cmp : A -> A -> Z) (l : list A) : list A :=
  foldr (sort_insert cmp) [] l.

(** [a.map(f).join('')] *)
Definition map_join {A} (f : A -> string) (l : list A) : string :=
  foldr (fun x acc => f x +:+ acc) EmptyString l.

(** ** Response headers: a JavaScript object, in insertion order *)

Inductive header_value :=
  | HString (s : string)
  | HNumber (n : Z).

Definition Headers := list (string * header_value).

(** [headers[k] = v] *)
Fixpoint set_header (k : string) (v : header_value) (h : Headers) : Headers :=
  match h with
  | [] => [(k, v)]
  | (k', v') :: r =>
      if String.eqb k' k then (k, v) :: r else (k', v') :: set_header k v r
  end.

Fixpoint get_header (k : string) (h : Headers) : option header_value :=
  match h with
  | [] => None
  | (k', v) :: r => if String.eqb k' k then Some v else get_header k r
  end.

Definition header_names (h : Headers) : list string := map fst h.

(** ** Effects *)

Inductive chunk :=
  | ChunkString (s : string)
  | ChunkBuffer (b : Buffer).

Definition chunk_bytes (c : chunk) : Buffer :=
  match c with
  | ChunkString s => Buffer_from s
  | ChunkBuffer b => b
  end.

Inductive event :=
  | FsExists (p : string)
  | FsStat (p : string)
  | FsReadFile (p : string)
  | FsReadDir (p : string)
  | ConsoleLog (msg : string)
  | ConsoleError (err : string)
  | WriteHead (status : Z) (statusText : string) (h : Headers)
  | End (body : option chunk).

Inductive outcome (A : Type) :=
  | Return (a : A)
  | Throw (err : string).
Arguments Return {A} a.
Arguments Throw {A} err.

(** A computation emits events and then returns or throws. *)
Definition M (A : Type) : Type := list event * outcome A.

Definition ret {A} (a : A) : M A := ([], Return a).

Definition bind {A B} (m : M A) (f : A -> M B) : M B :=
  match m with
  | (t, Return a) => let '(t', r) := f a in (t ++ t', r)
  | (t, Throw e) => (t, Throw e)
  end.

Definition emit (e : event) : M unit := ([e], Return tt).

Definition lift {A} (o : outcome A) : M A := ([], o).

(** [promise.then(undefined, handler)] *)
Definition catch (m : M unit) (handler : string -> M unit) : M unit :=
  match m with
  | (t, Return a) => (t, Return a)
  | (t, Throw e) => let '(t', r) := handler e in (t ++ t', r)
  end.

Notation "'let!' x ':=' m 'in' k" := (bind m (fun x => k))
  (at level 10, x name, m at level 100, k at level 200).
Notation "m ';;;' k" := (bind m (fun _ => k))
  (at level 100, k at level 200, right associativity).

(** ** The Node.js runtime *)

Record Url := {
  pathname : option string;
  search : option string;
  hash : option string;
}.

Record Platform := {
  process_cwd : string;
  path_sep : string;
  path_normalize : string -> string;
  path_join : string -> string -> string;
  path_relative : string -> string -> string;
  path_extname : string -> string;
  path_posix_join : string -> string -> string;
  url_parse : string -> outcome Url;
  md5_hex : Buffer -> string;
  toUTCString : Z -> string;
  localeCompare : string -> string -> Z;
}.

Record Dirent := {
  name : string;
  isDirectory : bool;
}.

Record Stats := {
  stats_isDirectory : bool;
}.

(** Result handed to a Node.js callback: [(err, value)]. *)
Inductive callback (A : Type) :=
  | Err (code : string)
  | Ok (a : A).
Arguments Err {A} code.
Arguments Ok {A} a.

Record FileSystem := {
  fs_exists : string -> bool;
  fs_stat : string -> callback Stats;
  fs_readFile : string -> callback Buffer;
  fs_readdir : string -> callback (list Dirent);
}.

Record IncomingMessage := {
  method : option string;
  url : option string;
  headers : gmap string string;
}.

Record IServerOptions := {
  opt_rootDir : option string;
  opt_etag : option bool;
  opt_expires : option Z;
}.

(** The constants [createServer] closes the handler over; [expires] is a
    whole number of milliseconds. *)
Record Closure := {
  rootDir : string;
  useETag : bool;
  expires : Z;
}.

(** The two builds of the handler kept in the repository.  They differ in
    [serveFile] only: in the object [headers] starts from and in the
    [switch] on the extension. *)
Inductive build :=
  | IndexTs   (* src/index.ts *)
  | IndexJs.  (* out/index.js *)

(** ** The listing page

    The constant pieces of the template literal of [serveDir], the same in
    both builds: up to the first [${relativePath}], between the two, from
    the second one to [${entries.map(...).join('')}], and after it. *)

Definition listing_before_title : string :=
  nl +:+ "<!DOCTYPE html>" +:+ nl +:+ "<html>" +:+ nl +:+ tab +:+
  "<head>" +:+ nl +:+ tab +:+ tab +:+ "<title>Listing of " +:+ EmptyString.

Definition listing_before_heading : string :=
  "</title>" +:+ nl +:+ tab +:+ tab +:+ "<style>" +:+ nl +:+ ".icon {" +:+
  nl +:+ tab +:+ "display: inline-block;" +:+ nl +:+ tab +:+
  "width: 1em;" +:+ nl +:+ tab +:+ "height: 1em;" +:+ nl +:+ tab +:+
  "margin-right: 5px;" +:+ nl +:+ tab +:+ "background-repeat: no-repeat;" +:+
  nl +:+ "}" +:+ nl +:+ ".file-icon { background-image: url(" +:+ dq +:+
  "data:image/svg+xml,%3C%3Fxml version='1.0' encoding='iso-8859-1'" +:+
  "%3F%3E%3Csvg version='1.1' id='Capa_1' xmlns='http://www.w3.org/" +:+
  "2000/svg' xmlns:xlink='http://www.w3.org/1999/xlink' x='0px' y='" +:+
  "0px' viewBox='0 0 368.553 368.553' style='enable-background:new " +:+
  "0 0 368.553 368.553;' xml:space='preserve'%3E%3Cg%3E%3Cg%3E%3Cpa" +:+
  "th d='M239.68,0H42.695v368.553h283.164V86.811L239.68,0z M244.057" +:+
  ",25.7l56.288,56.701h-56.288V25.7z M57.695,353.553V15 h171.362v82" +:+
  ".401h81.802v256.151H57.695V353.553z'/%3E%3Crect x='86.435' y='82" +:+
  ".401' width='121.875' height='15'/%3E%3Crect x='86.435' y='151.1" +:+
  "22' width='195.685' height='15'/%3E%3Crect x='86.435' y='219.843" +:+
  "' width='195.685' height='15'/%3E%3Crect x='86.435' y='288.563' " +:+
  "width='195.685' height='15'/%3E%3C/g%3E%3C/g%3E%3C/svg%3E%0A" +:+ dq +:+
  "); }" +:+ nl +:+ ".folder-icon { background-image: url(" +:+ dq +:+
  "data:image/svg+xml,%3C%3Fxml version='1.0' encoding='iso-8859-1'" +:+
  "%3F%3E%3C!-- Generator: Adobe Illustrator 19.0.0, SVG Export Plu" +:+
  "g-In . SVG Version: 6.00 Build 0) --%3E%3Csvg version='1.1' id='" +:+
  "Layer_1' xmlns='http://www.w3.org/2000/svg' xmlns:xlink='http://" +:+
  "www.w3.org/1999/xlink' x='0px' y='0px' viewBox='0 0 512 512' sty" +:+
  "le='enable-background:new 0 0 512 512;' xml:space='preserve'%3E%" +:+
  "3Cpath style='fill:%23FBC176;' d='M0,167.724v264.828c0,15.007,11" +:+
  ".476,26.483,26.483,26.483h459.034 c15.007,0,26.483-11.476,26.483" +:+
  "-26.483V167.724c0-15.007-11.476-26.483-26.483-26.483H26.483C11.4" +:+
  "76,141.241,0,153.6,0,167.724'/%3E%3Cpath style='fill:%23C39A6E;'" +:+
  " d='M467.862,141.241c0-19.421-15.89-35.31-35.31-35.31H291.31l-44" +:+
  ".138-52.966H52.966 c-15.007,0-26.483,12.359-26.483,26.483v61.793" +:+
  "H467.862z'/%3E%3Cg%3E%3Cpath style='fill:%23FFFFFF;' d='M158.897" +:+
  ",203.034H52.966c-5.297,0-8.828-3.531-8.828-8.828s3.531-8.828,8.8" +:+
  "28-8.828h105.931 c5.297,0,8.828,3.531,8.828,8.828S164.193,203.03" +:+
  "4,158.897,203.034'/%3E%3Cpath style='fill:%23FFFFFF;' d='M158.89" +:+
  "7,238.345H52.966c-5.297,0-8.828-3.531-8.828-8.828s3.531-8.828,8." +:+
  "828-8.828h105.931 c5.297,0,8.828,3.531,8.828,8.828S164.193,238.3" +:+
  "45,158.897,238.345'/%3E%3C/g%3E%3C/svg%3E%0A" +:+ dq +:+ "); }" +:+ nl +:+
  tab +:+ tab +:+ "</style>" +:+ nl +:+ tab +:+ "</head>" +:+ nl +:+ tab +:+
  "<body>" +:+ nl +:+ tab +:+ tab +:+ "<h2>Listing of " +:+ EmptyString.

Definition listing_before_items : string :=
  "</h2>" +:+ nl +:+ tab +:+ tab +:+ "<ul style=" +:+ dq +:+
  "list-style-type:none" +:+ dq +:+ ">" +:+ nl +:+ tab +:+ tab +:+ tab +:+ EmptyString.

Definition listing_after_items : string :=
  nl +:+ tab +:+ tab +:+ "</ul>" +:+ nl +:+ tab +:+ "</body>" +:+ nl +:+
  "</html>" +:+ nl +:+ EmptyString.

(** ** The server *)

Section Server.

Context (P : Platform) (fs : FileSystem).

(** *** Promise wrappers around [fs] (region [utils])

    The result of a probe is what its callback receives.  A call of [fs]
    that throws before it takes the callback (an argument it refuses) is
    outside this model. *)

Definition fsExists (path : string) : M bool :=
  emit (FsExists path) ;;;
  ret (fs_exists fs path).

Definition fsSafeStat (path : string) : M (option Stats) :=
  emit (FsStat path) ;;;
  match fs_stat fs path with
  | Err _ => ret None
  | Ok exists_ => ret (Some exists_)
  end.

Definition fsSafeRead (path : string) : M (option Buffer) :=
  emit (FsReadFile path) ;;;
  match fs_readFile fs path with
  | Err _ => ret None
  | Ok data => ret (Some data)
  end.

Definition fsSafeReadDir (path : string) : M (option (list Dirent)) :=
  emit (FsReadDir path) ;;;
  match fs_readdir fs path with
  | Err _ => ret None
  | Ok files => ret (Some files)
  end.

(** *** The handler closure *)

Section Handler.

Context (b : build) (env : Closure).

(** [now] is the value of [Date.now()] while the request is served. *)
Context (now : Z).

Definition notFound (req : IncomingMessage) (extra : string) : M unit :=
  emit (WriteHead 404 "Not found" []) ;;;
  emit (End (Some (ChunkString
    ("Not found" +:+ (if truthy extra then " - " +:+ extra else EmptyString))))).

Definition redirect (req : IncomingMessage) (location : string) : M unit :=
  emit (WriteHead 302 "Found" [("Location", HString location)]) ;;;
  emit (End (Some (ChunkString ("Location: " +:+ location)))).

(** The object literal [headers] starts from in [serveFile]. *)
Definition initial_headers : Headers :=
  match b with
  | IndexTs => [("Content-Encoding", HString "utf8")]
  | IndexJs => []
  end.

(** The [switch (extname)] of [src/index.ts]: [Some (Some t)] sets
    [Content-Type] to [t], [Some None] is the case that only breaks,
    [None] is the [default] branch. *)
Definition mime_ts (extname : string) : option (option string) :=
  if String.eqb extname ".html" then Some (Some "text/html")
  else if String.eqb extname ".htm" then Some (Some "text/html")
  else if String.eqb extname ".js" then Some (Some "text/javascript")
  else if String.eqb extname ".css" then Some (Some "text/css")
  else if String.eqb extname ".ttf" then Some (Some "font/ttf")
  else if String.eqb extname ".svg" then Some (Some "image/svg+xml")
  else if String.eqb extname ".wasm" then Some (Some "application/wasm")
  else if String.eqb extname ".map" then Some None
  else None.

(** The [switch (extname)] of [out/index.js]. *)
Definition mime_js (extname : string) : option (option string) :=
  if String.eqb extname ".css" then Some (Some "text/css; charset=utf-8")
  else if String.eqb extname ".htm" then Some (Some "text/html; charset=utf-8")
  else if String.eqb extname ".html" then Some (Some "text/html; charset=utf-8")
  else if String.eqb extname ".js" then Some (Some "text/javascript; charset=utf-8")
  else if String.eqb extname ".json" then Some (Some "application/json; charset=utf-8")
  else if String.eqb extname ".png" then Some (Some "image/png")
  else if String.eqb extname ".svg" then Some (Some "image/svg+xml")
  else if String.eqb extname ".ttf" then Some (Some "font/ttf")
  else if String.eqb extname ".txt" then Some (Some "text/plain; charset=utf-8")
  else if String.eqb extname ".wasm" then Some (Some "application/wasm")
  else if String.eqb extname ".map" then Some None
  else None.

Definition mime (extname : string) : option (option string) :=
  match b with
  | IndexTs => mime_ts extname
  | IndexJs => mime_js extname
  end.

Definition serveFile (req : IncomingMessage) (extname : string)
    (content : Buffer) : M unit :=
  let headers0 := initial_headers in
  let! headers1 :=
    match mime extname with
    | Some (Some t) => ret (set_header "Content-Type" (HString t) headers0)
    | Some None => ret headers0
    | None =>
        emit (ConsoleLog ("Unhandled mime-type for ext name: " +:+ extname)) ;;;
        ret headers0
    end in
  let headers2 :=
    if truthy_num (expires env)
    then set_header "Expires" (HString (toUTCString P (now + expires env))) headers1
    else headers1 in
  let serve200 (headers3 : Headers) : M unit :=
    let headers4 := set_header "Content-Length" (HNumber (byteLength content)) headers3 in
    emit (WriteHead 200 "OK" headers4) ;;;
    emit (End (Some (ChunkBuffer content))) in
  if useETag env then
    let etag := md5_hex P content in
    let headers3 := set_header "ETag" (HString etag) headers2 in
    if strict_eq_opt (headers req !! "if-none-match") etag then
      emit (WriteHead 304 "Not modified" headers3) ;;;
      emit (End None)
    else serve200 headers3
  else serve200 headers2.

(** The comparator handed to [entries.sort]: directories first, then by
    [localeCompare] on the names. *)
Definition compare_entries (a b0 : Dirent) : Z :=
  let aIsDir := if isDirectory a then 0 else 1 in
  let bIsDir := if isDirectory b0 then 0 else 1 in
  if (aIsDir =? bIsDir)%Z then localeCompare P (name a) (name b0)
  else aIsDir - bIsDir.

Definition listing_item (relativePath : string) (entry : Dirent) : string :=
  "<li> <span class=" +:+ dq +:+ "icon " +:+
  (if isDirectory entry then "folder-icon" else "file-icon") +:+ dq +:+
  "></span><a href=" +:+ dq +:+
  path_posix_join P relativePath (name entry) +:+
  (if isDirectory entry then "/" else EmptyString) +:+ dq +:+ ">" +:+
  name entry +:+ "</a></li>" +:+ nl.

Definition serveDir (req : IncomingMessage) (dirPath : string)
    (entries : list Dirent) : M unit :=
  let relativePath :=
    replace_backslashes (path_sep P +:+ path_relative P (rootDir env) dirPath) in
  let entries := array_sort compare_entries entries in
  let contents :=
    listing_before_title +:+ relativePath +:+
    listing_before_heading +:+ relativePath +:+
    listing_before_items +:+ map_join (listing_item relativePath) entries +:+
    listing_after_items in
  serveFile req ".html" (Buffer_from contents).

Definition doHandle (req : IncomingMessage) : M unit :=
  if negb (strict_eq_opt (method req) "GET") || negb (truthy_opt (url req))
  then notFound req "1"
  else
    let! parsed := lift (url_parse P (default EmptyString (url req))) in
    match pathname parsed with
    | None => notFound req "2"
    | Some pathname =>
      if negb (truthy pathname) then notFound req "2"
      else
        let requestedPath :=
          path_normalize P (path_join P (rootDir env) pathname) in
        if negb (String.eqb
                   (substr0 requestedPath (String.length (rootDir env)))
                   (rootDir env))
        then notFound req "3"
        else
          let! content := fsSafeRead requestedPath in
          match content with
          | Some content =>
              serveFile req (path_extname P requestedPath) content
          | None =>
              (* maybe it was a directory? *)
              let! stats := fsSafeStat requestedPath in
              match stats with
              | None => notFound req "4"
              | Some stats =>
                if negb (stats_isDirectory stats) then notFound req "4"
                else
                  let expectedRequestPath :=
                    replace_backslashes
                      (path_relative P (rootDir env) requestedPath) +:+ "/" in
                  let expectedRequestPath :=
                    if negb (String.eqb (charAt0 expectedRequestPath) "/")
                    then "/" +:+ expectedRequestPath
                    else expectedRequestPath in
                  if negb (String.eqb pathname expectedRequestPath)
                  then redirect req expectedRequestPath
                  else
                    let indexPath :=
                      path_normalize P (path_join P requestedPath "index.html") in
                    let! indexContent := fsSafeRead indexPath in
                    match indexContent with
                    | Some indexContent =>
                        serveFile req (path_extname P indexPath) indexContent
                    | None =>
                        let! dirEntries := fsSafeReadDir requestedPath in
                        match dirEntries with
                        | Some dirEntries =>
                            serveDir req requestedPath dirEntries
                        | None => notFound req "5"
                        end
                    end
              end
          end
    end.

(** The [handle] method of the object [createServer] returns. *)
Definition handle (req : IncomingMessage) : M unit :=
  catch (doHandle req) (fun err =>
    emit (ConsoleError err) ;;;
    emit (WriteHead 500 "Internal Server Error" []) ;;;
    emit (End (Some (ChunkString "Internal Server Error")))).

End Handler.

(** [createServer] up to the point where it returns the handler: the
    constants the handler closes over, or the error it throws. *)
Definition createServer (options : IServerOptions) : M Closure :=
  let rootDir :=
    path_normalize P
      (match opt_rootDir options with
       | Some r => r
       | None => process_cwd P
       end) in
  let useETag := match opt_etag options with Some e => e | None => true end in
  let expires :=
    match opt_expires options with Some e => e | None => 5 * 1000 end in
  let! rootDirExists := fsExists rootDir in
  if negb rootDirExists
  then lift (Throw (interpolate_opt (opt_rootDir options) +:+ " does not "))
  else ret {| rootDir := rootDir; useETag := useETag; expires := expires |}.

End Server.

(** ** A concrete runtime: Node.js on a POSIX system

    [path] follows the algorithms of Node's [path.posix], read on path
    segments; [url.parse] covers request targets in origin form
    ([/path?query#fragment]) made of characters that [url.parse] neither
    trims, escapes nor rewrites; [md5_hex] is RFC 1321. *)

Module Posix.

Definition slash : ascii := "/"%char.

(** [s.split(c)] *)
Fixpoint split (c : ascii) (s : string) : list string :=
  match s with
  | EmptyString => [EmptyString]
  | String x r =>
      if Ascii.eqb x c then EmptyString :: split c r
      else match split c r with
           | seg :: segs => String x seg :: segs
           | [] => [String x EmptyString]
           end
  end.

Definition isAbsolute (path : string) : bool :=
  match path with
  | String c _ => Ascii.eqb c slash
  | EmptyString => false
  end.

Fixpoint endsWithSlash (path : string) : bool :=
  match path with
  | EmptyString => false
  | String c EmptyString => Ascii.eqb c slash
  | String _ r => endsWithSlash r
  end.

(** One step of [normalizeString] on the stack of segments kept so far
    (innermost first). *)
Definition push_segment (allowAboveRoot : bool) (stack : list string)
    (seg : string) : list string :=
  if negb (truthy seg) || String.eqb seg "." then stack
  else if String.eqb seg ".." then
    match stack with
    | top :: rest =>
        if String.eqb top ".."
        then (if allowAboveRoot then seg :: stack else stack)
        else rest
    | [] => if allowAboveRoot then [seg] else []
    end
  else seg :: stack.

Definition normalize_segments (allowAboveRoot : bool) (path : string)
    : list string :=
  rev (fold_left (push_segment allowAboveRoot) (split slash path) []).

Definition normalizeString (path : string) (allowAboveRoot : bool) : string :=
  String.concat "/" (normalize_segments allowAboveRoot path).

(** [path.posix.normalize] *)
Definition normalize (path : string) : string :=
  if negb (truthy path) then "."
  else
    let absolute := isAbsolute path in
    let trailingSeparator := endsWithSlash path in
    let path' := normalizeString path (negb absolute) in
    if negb (truthy path') then
      if absolute then "/" else if trailingSeparator then "./" else "."
    else
      let path' := if trailingSeparator then path' +:+ "/" else path' in
      if absolute then "/" +:+ path' else path'.

(** [path.posix.join] of two arguments *)
Definition join (a b : string) : string :=
  let joined :=
    if truthy a then (if truthy b then a +:+ "/" +:+ b else a) else b in
  if negb (truthy joined) then "." else normalize joined.

(** [path.posix.resolve] of one argument, under working directory [cwd] *)
Definition resolve (cwd path : string) : string :=
  let resolvedPath := if truthy path then path +:+ "/" else EmptyString in
  let '(resolvedPath, resolvedAbsolute) :=
    if isAbsolute path then (resolvedPath, true)
    else (cwd +:+ "/" +:+ resolvedPath, isAbsolute cwd) in
  let resolvedPath := normalizeString resolvedPath (negb resolvedAbsolute) in
  if resolvedAbsolute then "/" +:+ resolvedPath
  else if truthy resolvedPath then resolvedPath else ".".

Fixpoint strip_common (from to : list string) : list string * list string :=
  match from, to with
  | f :: from', t :: to' =>
      if String.eqb f t then strip_common from' to' else (from, to)
  | _, _ => (from, to)
  end.

(** [path.posix.relative] *)
Definition relative (cwd from to : string) : string :=
  if String.eqb from to then EmptyString
  else
    let from := resolve cwd from in
    let to := resolve cwd to in
    if String.eqb from to then EmptyString
    else
      let '(up, down) :=
        strip_common (normalize_segments false from)
                     (normalize_segments false to) in
      String.concat "/" (map (fun _ => "..") up ++ down).

(** The suffix of [s] that starts at its last dot. *)
Fixpoint from_last_dot (s : string) : option string :=
  match s with
  | EmptyString => None
  | String c r =>
      match from_last_dot r with
      | Some e => Some e
      | None => if Ascii.eqb c "."%char then Some s else None
      end
  end.

(** [path.posix.extname]: the extension of the last non-empty segment;
    a dot that starts the segment does not count, nor does [..]. *)
Definition extname (path : string) : string :=
  match rev (filter (fun seg => truthy seg = true) (split slash path)) with
  | [] => EmptyString
  | base :: _ =>
      if String.eqb base ".." then EmptyString
      else match base with
           | EmptyString => EmptyString
           | String _ r => default EmptyString (from_last_dot r)
           end
  end.

(** The part of [s] before the first character satisfying [stop], and the
    rest from that character on. *)
Fixpoint break (stop : ascii -> bool) (s : string) : string * string :=
  match s with
  | EmptyString => (EmptyString, EmptyString)
  | String c r =>
      if stop c then (EmptyString, s)
      else let '(pre, post) := break stop r in (String c pre, post)
  end.

Definition nonempty (s : string) : option string :=
  if truthy s then Some s else None.

(** [url.parse] on an origin-form request target. *)
Definition parse (urlString : string) : outcome Url :=
  let '(rest, hash) := break (fun c => Ascii.eqb c "#"%char) urlString in
  let '(path, search) := break (fun c => Ascii.eqb c "?"%char) rest in
  Return {| pathname := nonempty path;
            search := nonempty search;
            hash := nonempty hash |}.

End Posix.

(** *** [crypto.createHash('md5').update(content).digest("hex")] *)

Module MD5.

Definition mask32 (x : Z) : Z := Z.land x 0xffffffff.

Definition add32 (x y : Z) : Z := mask32 (x + y).

Definition not32 (x : Z) : Z := Z.lxor x 0xffffffff.

Definition rotl32 (x c : Z) : Z :=
  mask32 (Z.lor (Z.shiftl x c) (Z.shiftr x (32 - c))).

Definition K : list Z :=
  [ 0xd76aa478; 0xe8c7b756; 0x242070db; 0xc1bdceee;
    0xf57c0faf; 0x4787c62a; 0xa8304613; 0xfd469501;
    0x698098d8; 0x8b44f7af; 0xffff5bb1; 0x895cd7be;
    0x6b901122; 0xfd987193; 0xa679438e; 0x49b40821;
    0xf61e2562; 0xc040b340; 0x265e5a51; 0xe9b6c7aa;
    0xd62f105d; 0x02441453; 0xd8a1e681; 0xe7d3fbc8;
    0x21e1cde6; 0xc33707d6; 0xf4d50d87; 0x455a14ed;
    0xa9e3e905; 0xfcefa3f8; 0x676f02d9; 0x8d2a4c8a;
    0xfffa3942; 0x8771f681; 0x6d9d6122; 0xfde5380c;
    0xa4beea44; 0x4bdecfa9; 0xf6bb4b60; 0xbebfbc70;
    0x289b7ec6; 0xeaa127fa; 0xd4ef3085; 0x04881d05;
    0xd9d4d039; 0xe6db99e5; 0x1fa27cf8; 0xc4ac5665;
    0xf4292244; 0x432aff97; 0xab9423a7; 0xfc93a039;
    0x655b59c3; 0x8f0ccc92; 0xffeff47d; 0x85845dd1;
    0x6fa87e4f; 0xfe2ce6e0; 0xa3014314; 0x4e0811a1;
    0xf7537e82; 0xbd3af235; 0x2ad7d2bb; 0xeb86d391 ].

Definition shifts : list Z :=
  [ 7; 12; 17; 22; 7; 12; 17; 22; 7; 12; 17; 22; 7; 12; 17; 22;
    5;  9; 14; 20; 5;  9; 14; 20; 5;  9; 14; 20; 5;  9; 14; 20;
    4; 11; 16; 23; 4; 11; 16; 23; 4; 11; 16; 23; 4; 11; 16; 23;
    6; 10; 15; 21; 6; 10; 15; 21; 6; 10; 15; 21; 6; 10; 15; 21 ].

Definition nthZ (l : list Z) (i : Z) : Z := nth (Z.to_nat i) l 0.

(** Little-endian bytes of [x], [n] of them. *)
Fixpoint le_bytes (n : nat) (x : Z) : list Z :=
  match n with
  | O => []
  | S n' => Z.land x 0xff :: le_bytes n' (Z.shiftr x 8)
  end.

Fixpoint le_word (bytes : list Z) : Z :=
  match bytes with
  | [] => 0
  | x :: r => Z.lor x (Z.shiftl (le_word r) 8)
  end.

(** The message followed by [0x80], zeros up to 56 modulo 64, and the
    bit length on 64 bits. *)
Definition pad (msg : list Z) : list Z :=
  let len := Z.of_nat (List.length msg) in
  let zeros := (55 - len) mod 64 in
  msg ++ [0x80] ++ repeat 0 (Z.to_nat zeros)
      ++ le_bytes 8 (Z.land (8 * len) 0xffffffffffffffff).

(** Cuts [l] into [n] pieces of [size] elements. *)
Fixpoint pieces {A} (n size : nat) (l : list A) : list (list A) :=
  match n with
  | O => []
  | S n' => firstn size l :: pieces n' size (skipn size l)
  end.

Definition state : Type := Z * Z * Z * Z.

Definition step (X : list Z) (s : state) (i : Z) : state :=
  let '(A, B, C, D) := s in
  let '(F, g) :=
    if i <? 16 then (Z.lor (Z.land B C) (Z.land (not32 B) D), i)
    else if i <? 32 then
      (Z.lor (Z.land D B) (Z.land (not32 D) C), (5 * i + 1) mod 16)
    else if i <? 48 then (Z.lxor B (Z.lxor C D), (3 * i + 5) mod 16)
    else (Z.lxor C (Z.lor B (not32 D)), (7 * i) mod 16) in
  let F := add32 (add32 (add32 F A) (nthZ K i)) (nthZ X g) in
  (D, add32 B (rotl32 F (nthZ shifts i)), B, C).

Definition rounds : list Z := map Z.of_nat (seq 0 64).

Definition chunk_step (s : state) (chunk : list Z) : state :=
  let X := map le_word (pieces 16 4 chunk) in
  let '(A, B, C, D) := fold_left (step X) rounds s in
  let '(a0, b0, c0, d0) := s in
  (add32 a0 A, add32 b0 B, add32 c0 C, add32 d0 D).

Definition digest (msg : list Z) : list Z :=
  let padded := pad msg in
  let chunks := pieces (List.length padded / 64) 64 padded in
  let '(a0, b0, c0, d0) :=
    fold_left chunk_step chunks
      (0x67452301, 0xefcdab89, 0x98badcfe, 0x10325476) in
  le_bytes 4 a0 ++ le_bytes 4 b0 ++ le_bytes 4 c0 ++ le_bytes 4 d0.

Definition hex_digit (x : Z) : ascii :=
  ascii_of_nat (Z.to_nat (if x <? 10 then 48 + x else 87 + x)).

Fixpoint hex (bytes : list Z) : string :=
  match bytes with
  | [] => EmptyString
  | x :: r =>
      String (hex_digit (Z.shiftr x 4)) (String (hex_digit (Z.land x 0xf)) (hex r))
  end.

Definition md5_hex (content : Buffer) : string :=
  hex (digest (map (fun x => Z.of_N (Byte.to_N x)) content)).

End MD5.

(** *** [new Date(t).toUTCString()] *)

Module DateFormat.

Definition msPerDay : Z := 86400000.

(** Civil date [(year, month, day)] of a day number counted from
    1970-01-01, in the proleptic Gregorian calendar. *)
Definition civil (days : Z) : Z * Z * Z :=
  let z := days + 719468 in
  let era := z / 146097 in
  let doe := z - era * 146097 in
  let yoe := (doe - doe / 1460 + doe / 36524 - doe / 146096) / 365 in
  let doy := doe - (365 * yoe + yoe / 4 - yoe / 100) in
  let mp := (5 * doy + 2) / 153 in
  let d := doy - (153 * mp + 2) / 5 + 1 in
  let m := if mp <? 10 then mp + 3 else mp - 9 in
  let y := yoe + era * 400 in
  (if m <=? 2 then y + 1 else y, m, d).

(** The last [k] decimal digits of [n]. *)
Fixpoint digits (k : nat) (n : Z) : string :=
  match k with
  | O => EmptyString
  | S k' =>
      digits k' (n / 10) +:+
      String (ascii_of_nat (Z.to_nat (48 + n mod 10))) EmptyString
  end.

Definition paddedYear (y : Z) : string :=
  let a := Z.abs y in
  (if y <? 0 then "-" else EmptyString) +:+
  (if a <? 10000 then digits 4 a
   else if a <? 100000 then digits 5 a
   else digits 6 a).

Definition weekdays : list string :=
  ["Sun"; "Mon"; "Tue"; "Wed"; "Thu"; "Fri"; "Sat"].

Definition months : list string :=
  ["Jan"; "Feb"; "Mar"; "Apr"; "May"; "Jun";
   "Jul"; "Aug"; "Sep"; "Oct"; "Nov"; "Dec"].

Definition toUTCString (t : Z) : string :=
  if 8640000000000000 <? Z.abs t then "Invalid Date"
  else
    let days := t / msPerDay in
    let ms := t mod msPerDay in
    let '(y, m, d) := civil days in
    nth (Z.to_nat ((days + 4) mod 7)) weekdays EmptyString +:+ ", " +:+
    digits 2 d +:+ " " +:+
    nth (Z.to_nat (m - 1)) months EmptyString +:+ " " +:+
    paddedYear y +:+ " " +:+
    digits 2 (ms / 3600000) +:+ ":" +:+
    digits 2 (ms / 60000 mod 60) +:+ ":" +:+
    digits 2 (ms / 1000 mod 60) +:+ " GMT".

End DateFormat.

(** [localeCompare] by code units; Node collates with ICU, which gives the
    same order on names made of lower-case letters and digits. *)
Definition ordinalCompare (a b : string) : Z :=
  match String.compare a b with
  | Lt => -1
  | Eq => 0
  | Gt => 1
  end.

Definition node (cwd : string) : Platform := {|
  process_cwd := cwd;
  path_sep := "/";
  path_normalize := Posix.normalize;
  path_join := Posix.join;
  path_relative := Posix.relative cwd;
  path_extname := Posix.extname;
  path_posix_join := Posix.join;
  url_parse := Posix.parse;
  md5_hex := MD5.md5_hex;
  toUTCString := DateFormat.toUTCString;
  localeCompare := ordinalCompare;
|}.

(** *** A file system given by its tree

    Paths are resolved the way the kernel does without symbolic links: by
    segments, [.] and [..] included; a trailing slash asks for a
    directory. *)

Inductive inode :=
  | File (content : Buffer)
  | Dir (entries : list Dirent).

Definition resolve_inode (tree : gmap string inode) (path : string)
    : callback inode :=
  match tree !! ("/" +:+ Posix.normalizeString path false) with
  | None => Err "ENOENT"
  | Some (File content) =>
      if Posix.endsWithSlash path then Err "ENOTDIR" else Ok (File content)
  | Some (Dir entries) => Ok (Dir entries)
  end.

Definition disk (tree : gmap string inode) : FileSystem := {|
  fs_exists path :=
    match resolve_inode tree path with
    | Ok _ => true
    | Err _ => false
    end;
  fs_stat path :=
    match resolve_inode tree path with
    | Ok (File _) => Ok {| stats_isDirectory := false |}
    | Ok (Dir _) => Ok {| stats_isDirectory := true |}
    | Err code => Err code
    end;
  fs_readFile path :=
    match resolve_inode tree path with
    | Ok (File content) => Ok content
    | Ok (Dir _) => Err "EISDIR"
    | Err code => Err code
    end;
  fs_readdir path :=
    match resolve_inode tree path with
    | Ok (Dir entries) => Ok entries
    | Ok (File _) => Err "ENOTDIR"
    | Err code => Err code
    end;
|}.

(** ** Observations on a trace *)

Definition is_probe (e : event) : bool :=
  match e with
  | FsExists _ | FsStat _ | FsReadFile _ | FsReadDir _ => true
  | _ => false
  end.

Definition is_response_call (e : event) : bool :=
  match e with
  | WriteHead _ _ _ | End _ => true
  | _ => false
  end.

(** The file-system probes of a trace, in order. *)
Definition probes (t : list event) : list event :=
  filter (fun e => is_probe e = true) t.

(** The calls on the response object, in order. *)
Definition response_calls (t : list event) : list event :=
  filter (fun e => is_response_call e = true) t.

(** The status codes passed to [res.writeHead]. *)
Definition statuses (t : list event) : list Z :=
  omap (fun e => match e with WriteHead s _ _ => Some s | _ => None end) t.

(** The header objects passed to [res.writeHead]. *)
Definition sent_headers (t : list event) : list Headers :=
  omap (fun e => match e with WriteHead _ _ h => Some h | _ => None end) t.

(** The bytes passed to [res.end]; nothing for a call without argument. *)
Definition bodies (t : list event) : list Buffer :=
  omap (fun e =>
    match e with
    | End (Some c) => Some (chunk_bytes c)
    | End None => Some []
    | _ => None
    end) t.

(** The values of the [ETag] header passed to [res.writeHead]. *)
Definition etags (t : list event) : list (option header_value) :=
  map (get_header "ETag") (sent_headers t).

(** A [GET] request. *)
Definition GET (u : string) (h : gmap string string) : IncomingMessage :=
  {| method := Some "GET"; url := Some u; headers := h |}.

Definition www : Closure :=
  {| rootDir := "/srv/www"; useETag := true; expires := 5000 |}.

(** A sample tree: a site under [/srv/www] and a sibling directory. *)
Definition sample : gmap string inode :=
  list_to_map
    [ ("/", Dir [{| name := "srv"; isDirectory := true |}]);
      ("/srv", Dir [{| name := "www"; isDirectory := true |};
                    {| name := "wwwevil"; isDirectory := true |}]);
      ("/srv/www", Dir [{| name := "b.txt"; isDirectory := false |};
                        {| name := "a.txt"; isDirectory := false |};
                        {| name := "a b.txt"; isDirectory := false |};
                        {| name := "sub"; isDirectory := true |};
                        {| name := "docs"; isDirectory := true |}]);
      ("/srv/www/a.txt", File (Buffer_from "hello"));
      ("/srv/www/b.txt", File (Buffer_from "abc"));
      ("/srv/www/a b.txt", File (Buffer_from "spaced"));
      ("/srv/www/sub", Dir [{| name := "index.html"; isDirectory := false |}]);
      ("/srv/www/sub/index.html", File (Buffer_from "<p>sub</p>"));
      ("/srv/www/docs", Dir [{| name := "b.txt"; isDirectory := false |};
                             {| name := "a"; isDirectory := true |}]);
      ("/srv/www/docs/b.txt", File (Buffer_from "b"));
      ("/srv/www/docs/a", Dir []);
      ("/srv/wwwevil", Dir [{| name := "secret.txt"; isDirectory := false |}]);
      ("/srv/wwwevil/secret.txt", File (Buffer_from "secret")) ].

(** ** The decision of [doHandle], apart from the writers

    [doHandle] probes the file system until it knows which writer to call.
    [resolve] is that first half: it ends in the [target] that [respond]
    hands to the writer ([doHandle_resolve] below proves the split). *)

Inductive target :=
  | NotFound (extra : string)
  | Redirect (location : string)
  | ServeFile (extname : string) (content : Buffer)
  | ServeDir (dirPath : string) (entries : list Dirent).

Section Decision.

Context (P : Platform) (fs : FileSystem) (b : build) (env : Closure) (now : Z).

(** The value of [requestedPath] for a given [pathname]. *)
Definition requestedPath_of (pathname : string) : string :=
  path_normalize P (path_join P (rootDir env) pathname).

(** The value of [expectedRequestPath] once both assignments are done. *)
Definition expectedRequestPath_of (requestedPath : string) : string :=
  let e :=
    replace_backslashes (path_relative P (rootDir env) requestedPath) +:+ "/" in
  if negb (String.eqb (charAt0 e) "/") then "/" +:+ e else e.

Definition resolve_directory (pathname requestedPath : string) : M target :=
  if negb (String.eqb pathname (expectedRequestPath_of requestedPath))
  then ret (Redirect (expectedRequestPath_of requestedPath))
  else
    let indexPath := path_normalize P (path_join P requestedPath "index.html") in
    let! indexContent := fsSafeRead fs indexPath in
    match indexContent with
    | Some indexContent => ret (ServeFile (path_extname P indexPath) indexContent)
    | None =>
        let! dirEntries := fsSafeReadDir fs requestedPath in
        match dirEntries with
        | Some dirEntries => ret (ServeDir requestedPath dirEntries)
        | None => ret (NotFound "5")
        end
    end.

Definition resolve_path (pathname : string) : M target :=
  let requestedPath := requestedPath_of pathname in
  if negb (String.eqb (substr0 requestedPath (String.length (rootDir env)))
                      (rootDir env))
  then ret (NotFound "3")
  else
    let! content := fsSafeRead fs requestedPath in
    match content with
    | Some content => ret (ServeFile (path_extname P requestedPath) content)
    | None =>
        let! stats := fsSafeStat fs requestedPath in
        match stats with
        | None => ret (NotFound "4")
        | Some stats =>
            if negb (stats_isDirectory stats) then ret (NotFound "4")
            else resolve_directory pathname requestedPath
        end
    end.

Definition resolve (method url : option string) : M target :=
  if negb (strict_eq_opt method "GET") || negb (truthy_opt url)
  then ret (NotFound "1")
  else
    let! parsed := lift (url_parse P (default EmptyString url)) in
    match pathname parsed with
    | None => ret (NotFound "2")
    | Some pathname =>
        if negb (truthy pathname) then ret (NotFound "2")
        else resolve_path pathname
    end.

Definition respond (req : IncomingMessage) (t : target) : M unit :=
  match t with
  | NotFound extra => notFound req extra
  | Redirect location => redirect req location
  | ServeFile extname content => serveFile P b env now req extname content
  | ServeDir dirPath entries => serveDir P b env now req dirPath entries
  end.

(** What [serveFile] logs: the warning of the [default] branch. *)
Definition serveFile_log (extname : string) : list event :=
  match mime b extname with
  | None => [ConsoleLog ("Unhandled mime-type for ext name: " +:+ extname)]
  | Some _ => []
  end.

(** The headers of [serveFile] once the [ETag] is in, before
    [Content-Length]. *)
Definition serveFile_headers (extname : string) (content : Buffer) : Headers :=
  let h1 :=
    match mime b extname with
    | Some (Some t) => set_header "Content-Type" (HString t) (initial_headers b)
    | _ => initial_headers b
    end in
  let h2 :=
    if truthy_num (expires env)
    then set_header "Expires" (HString (toUTCString P (now + expires env))) h1
    else h1 in
  if useETag env then set_header "ETag" (HString (md5_hex P content)) h2 else h2.

(** Whether the request's [If-None-Match] is the entity tag of [content]. *)
Definition not_modified (req : IncomingMessage) (content : Buffer) : bool :=
  useETag env &&
  strict_eq_opt (headers req !! "if-none-match") (md5_hex P content).

Definition not_found_trace (extra : string) : list event :=
  [WriteHead 404 "Not found" [];
   End (Some (ChunkString ("Not found - " +:+ extra)))].

Definition redirect_trace (location : string) : list event :=
  [WriteHead 302 "Found" [("Location", HString location)];
   End (Some (ChunkString ("Location: " +:+ location)))].

End Decision.

(** ** What a target makes of the response *)

Section Summary.

Context (P : Platform) (env : Closure).

(** The bytes [serveDir] hands to [serveFile]. *)
Definition listing_bytes (dirPath : string) (entries : list Dirent) : Buffer :=
  let relativePath :=
    replace_backslashes (path_sep P +:+ path_relative P (rootDir env) dirPath) in
  let entries := array_sort (compare_entries P) entries in
  Buffer_from
    (listing_before_title +:+ relativePath +:+
     listing_before_heading +:+ relativePath +:+
     listing_before_items +:+ map_join (listing_item P relativePath) entries +:+
     listing_after_items).

(** The content a target passes to [serveFile], if it does. *)
Definition target_content (t : target) : option Buffer :=
  match t with
  | ServeFile _ content => Some content
  | ServeDir dirPath entries => Some (listing_bytes dirPath entries)
  | NotFound _ | Redirect _ => None
  end.

Definition target_status (req : IncomingMessage) (t : target) : Z :=
  match t with
  | NotFound _ => 404
  | Redirect _ => 302
  | ServeFile _ _ | ServeDir _ _ =>
      match target_content t with
      | Some content => if not_modified P env req content then 304 else 200
      | None => 200
      end
  end.

Definition target_body (req : IncomingMessage) (t : target) : Buffer :=
  match t with
  | NotFound extra =>
      Buffer_from
        ("Not found" +:+ (if truthy extra then " - " +:+ extra else EmptyString))
  | Redirect location => Buffer_from ("Location: " +:+ location)
  | ServeFile _ _ | ServeDir _ _ =>
      match target_content t with
      | Some content => if not_modified P env req content then [] else content
      | None => []
      end
  end.

Definition target_etag (t : target) : option header_value :=
  match target_content t with
  | Some content =>
      if useETag env then Some (HString (md5_hex P content)) else None
  | None => None
  end.

End Summary.

(** The same request, sent again with [If-None-Match: etag]. *)
Definition with_if_none_match (etag : string) (req : IncomingMessage)
    : IncomingMessage :=
  {| method := method req;
     url := url req;
     headers := <["if-none-match" := etag]> (headers req) |}.

Definition only_probes (t : list event) : Prop :=
  Forall (fun e => is_probe e = true) t.

Definition only_logs (t : list event) : Prop :=
  Forall (fun e => exists msg, e = ConsoleLog msg) t.

(** ** The specification's wording, for comparison with the code *)

(** Inside the root: the root itself, or below it across a separator. *)
Definition inside_root (sep root path : string) : bool :=
  String.eqb path root || String.prefix (root +:+ sep) path.

(** The canonical directory URL as the specification writes it:
    ["/" + relativePath(rootDir, candidate) + "/"]. *)
Definition spec_expected (P : Platform) (env : Closure) (candidate : string)
    : string :=
  "/" +:+ replace_backslashes (path_relative P (rootDir env) candidate) +:+ "/".

Definition hex_value (c : ascii) : option nat :=
  let n := nat_of_ascii c in
  if (48 <=? n)%nat && (n <=? 57)%nat then Some (n - 48)%nat
  else if (65 <=? n)%nat && (n <=? 70)%nat then Some (n - 55)%nat
  else if (97 <=? n)%nat && (n <=? 102)%nat then Some (n - 87)%nat
  else None.

(** Percent-decoding: every [%XY] with hexadecimal [X], [Y] becomes the
    byte it denotes. *)
Fixpoint percent_decode (s : string) : string :=
  match s with
  | EmptyString => EmptyString
  | String c r =>
      let keep := String c (percent_decode r) in
      if Ascii.eqb c "%"%char then
        match r with
        | String x (String y r') =>
            match hex_value x, hex_value y with
            | Some h, Some l =>
                String (ascii_of_nat (16 * h + l)) (percent_decode r')
            | _, _ => keep
            end
        | _ => keep
        end
      else keep
  end.

(** The pathname as the specification writes it: the path component of
    the URL, query and fragment discarded, percent-decoded. *)
Definition spec_pathname (u : string) : string :=
  percent_decode
    (fst (Posix.break (fun c => Ascii.eqb c "?"%char || Ascii.eqb c "#"%char) u)).

(** The MIME table as the specification writes it. *)
Definition spec_mime (extname : string) : option string :=
  if String.eqb extname ".html" then Some "text/html"
  else if String.eqb extname ".htm" then Some "text/html"
  else if String.eqb extname ".js" then Some "text/javascript"
  else if String.eqb extname ".css" then Some "text/css"
  else if String.eqb extname ".json" then Some "application/json"
  else if String.eqb extname ".png" then Some "image/png"
  else if String.eqb extname ".svg" then Some "image/svg+xml"
  else if String.eqb extname ".ttf" then Some "font/ttf"
  else if String.eqb extname ".txt" then Some "text/plain"
  else if String.eqb extname ".wasm" then Some "application/wasm"
  else None.

(** The response headers the specification allows. *)
Definition spec_headers : list string :=
  ["Content-Type"; "Content-Length"; "Expires"; "ETag"; "Location"].


(** ** The decision of [doHandle] as a table

    One constructor for each way through [doHandle] up to the writer: the
    probes made on the way and the target reached, or the error thrown. *)

Section Table.

Context (P : Platform) (fs : FileSystem) (env : Closure).

(** The value of [indexPath] for a given [requestedPath]. *)
Definition indexPath_of (requestedPath : string) : string :=
  path_normalize P (path_join P requestedPath "index.html").

(** From the trailing-slash check on, for the directory [c]. *)
Inductive directory_decision (p : string)
    : string -> list event -> target -> Prop :=
  | NotCanonical c :
      p <> expectedRequestPath_of P env c ->
      directory_decision p c [] (Redirect (expectedRequestPath_of P env c))
  | HasIndex c content :
      p = expectedRequestPath_of P env c ->
      fs_readFile fs (indexPath_of c) = Ok content ->
      directory_decision p c
        [FsReadFile (indexPath_of c)]
        (ServeFile (path_extname P (indexPath_of c)) content)
  | HasEntries c code entries :
      p = expectedRequestPath_of P env c ->
      fs_readFile fs (indexPath_of c) = Err code ->
      fs_readdir fs c = Ok entries ->
      directory_decision p c
        [FsReadFile (indexPath_of c); FsReadDir c]
        (ServeDir c entries)
  | Unreadable c code code' :
      p = expectedRequestPath_of P env c ->
      fs_readFile fs (indexPath_of c) = Err code ->
      fs_readdir fs c = Err code' ->
      directory_decision p c
        [FsReadFile (indexPath_of c); FsReadDir c]
        (NotFound "5").

(** From the containment check on, for the pathname [p]. *)
Inductive path_decision (p : string) : list event -> target -> Prop :=
  | Escapes :
      String.prefix (rootDir env) (requestedPath_of P env p) = false ->
      path_decision p [] (NotFound "3")
  | IsFile content :
      String.prefix (rootDir env) (requestedPath_of P env p) = true ->
      fs_readFile fs (requestedPath_of P env p) = Ok content ->
      path_decision p
        [FsReadFile (requestedPath_of P env p)]
        (ServeFile (path_extname P (requestedPath_of P env p)) content)
  | IsMissing code code' :
      String.prefix (rootDir env) (requestedPath_of P env p) = true ->
      fs_readFile fs (requestedPath_of P env p) = Err code ->
      fs_stat fs (requestedPath_of P env p) = Err code' ->
      path_decision p
        [FsReadFile (requestedPath_of P env p);
         FsStat (requestedPath_of P env p)]
        (NotFound "4")
  | IsOther code stats :
      String.prefix (rootDir env) (requestedPath_of P env p) = true ->
      fs_readFile fs (requestedPath_of P env p) = Err code ->
      fs_stat fs (requestedPath_of P env p) = Ok stats ->
      stats_isDirectory stats = false ->
      path_decision p
        [FsReadFile (requestedPath_of P env p);
         FsStat (requestedPath_of P env p)]
        (NotFound "4")
  | IsDirectory code stats t tg :
      String.prefix (rootDir env) (requestedPath_of P env p) = true ->
      fs_readFile fs (requestedPath_of P env p) = Err code ->
      fs_stat fs (requestedPath_of P env p) = Ok stats ->
      stats_isDirectory stats = true ->
      directory_decision p (requestedPath_of P env p) t tg ->
      path_decision p
        ([FsReadFile (requestedPath_of P env p);
          FsStat (requestedPath_of P env p)] ++ t)
        tg.

(** From the top of [doHandle], for the method [m] and the URL [u]. *)
Inductive decision (m u : option string)
    : list event -> outcome target -> Prop :=
  | BadRequest :
      m <> Some "GET" \/ truthy_opt u = false ->
      decision m u [] (Return (NotFound "1"))
  | ParseThrows s err :
      m = Some "GET" -> u = Some s -> truthy s = true ->
      url_parse P s = Throw err ->
      decision m u [] (Throw err)
  | NoPathname s parsed :
      m = Some "GET" -> u = Some s -> truthy s = true ->
      url_parse P s = Return parsed ->
      truthy_opt (pathname parsed) = false ->
      decision m u [] (Return (NotFound "2"))
  | HasPathname s parsed p t tg :
      m = Some "GET" -> u = Some s -> truthy s = true ->
      url_parse P s = Return parsed ->
      pathname parsed = Some p -> truthy p = true ->
      path_decision p t tg ->
      decision m u t (Return tg).

(** The check of [doHandle] that turns a request down, by the reason code
    its 404 carries. *)
Inductive failed_check (req : IncomingMessage) : string -> Prop :=
  | Check1 :
      method req <> Some "GET" \/ truthy_opt (url req) = false ->
      failed_check req "1"
  | Check2 u parsed :
      method req = Some "GET" -> url req = Some u -> truthy u = true ->
      url_parse P u = Return parsed ->
      truthy_opt (pathname parsed) = false ->
      failed_check req "2"
  | Check3 u parsed p :
      method req = Some "GET" -> url req = Some u -> truthy u = true ->
      url_parse P u = Return parsed ->
      pathname parsed = Some p -> truthy p = true ->
      String.prefix (rootDir env) (requestedPath_of P env p) = false ->
      failed_check req "3"
  | Check4 u parsed p code :
      method req = Some "GET" -> url req = Some u -> truthy u = true ->
      url_parse P u = Return parsed ->
      pathname parsed = Some p -> truthy p = true ->
      String.prefix (rootDir env) (requestedPath_of P env p) = true ->
      fs_readFile fs (requestedPath_of P env p) = Err code ->
      match fs_stat fs (requestedPath_of P env p) with
      | Err _ => True
      | Ok stats => stats_isDirectory stats = false
      end ->
      failed_check req "4"
  | Check5 u parsed p code stats code' code'' :
      method req = Some "GET" -> url req = Some u -> truthy u = true ->
      url_parse P u = Return parsed ->
      pathname parsed = Some p -> truthy p = true ->
      String.prefix (rootDir env) (requestedPath_of P env p) = true ->
      fs_readFile fs (requestedPath_of P env p) = Err code ->
      fs_stat fs (requestedPath_of P env p) = Ok stats ->
      stats_isDirectory stats = true ->
      p = expectedRequestPath_of P env (requestedPath_of P env p) ->
      fs_readFile fs (indexPath_of (requestedPath_of P env p)) = Err code' ->
      fs_readdir fs (requestedPath_of P env p) = Err code'' ->
      failed_check req "5".

End Table.

(** The extension a target passes to [serveFile], if it does. *)
Definition target_extname (t : target) : string :=
  match t with
  | ServeFile extname _ => extname
  | ServeDir _ _ => ".html"
  | NotFound _ | Redirect _ => EmptyString
  end.

(** The calls on the response object for each outcome of [resolve]. *)
Definition answer (P : Platform) (b : build) (env : Closure) (now : Z)
    (req : IncomingMessage) (o : outcome target) : list event :=
  match o with
  | Throw _ =>
      [WriteHead 500 "Internal Server Error" [];
       End (Some (ChunkString "Internal Server Error"))]
  | Return (NotFound extra) =>
      [WriteHead 404 "Not found" [];
       End (Some (ChunkString
         ("Not found" +:+
          (if truthy extra then " - " +:+ extra else EmptyString))))]
  | Return (Redirect location) => redirect_trace location
  | Return t =>
      match target_content P env t with
      | Some content =>
          let h := serveFile_headers P b env now (target_extname t) content in
          if not_modified P env req content
          then [WriteHead 304 "Not modified" h; End None]
          else [WriteHead 200 "OK"
                  (set_header "Content-Length" (HNumber (byteLength content)) h);
                End (Some (ChunkBuffer content))]
      | None => []
      end
  end.

(** ** Request targets in origin form

    The URLs on which [Posix.parse] is [url.parse]: one leading slash, then
    letters, digits and a few marks that [url.parse] neither trims, nor
    escapes, nor rewrites, nor reads as a scheme, a user or a host. *)

Definition url_char (c : ascii) : bool :=
  let n := nat_of_ascii c in
  ((48 <=? n)%nat && (n <=? 57)%nat) ||
  ((65 <=? n)%nat && (n <=? 90)%nat) ||
  ((97 <=? n)%nat && (n <=? 122)%nat) ||
  existsb (Ascii.eqb c)
    ["-"; "."; "_"; "~"; "%"; "/"; "?"; "#"; "="; "&"]%char.

Fixpoint all_chars (f : ascii -> bool) (s : string) : bool :=
  match s with
  | EmptyString => true
  | String c r => f c && all_chars f r
  end.

Definition origin_form (u : string) : bool :=
  match u with
  | String "/" r =>
      negb (Posix.isAbsolute r) && all_chars url_char r
  | _ => false
  end.

(** The URL up to its first [?] or [#]. *)
Definition path_component (u : string) : string :=
  fst (Posix.break (fun c => Ascii.eqb c "?"%char || Ascii.eqb c "#"%char) u).

(** The status codes the handler answers with. *)
Definition status_codes : list Z := [200; 302; 304; 404; 500].

(** The reason codes of the 404 answers. *)
Definition reason_codes : list string := ["1"; "2"; "3"; "4"; "5"].

(** Directories before files: once a file is met, only files follow. *)
Fixpoint directories_first (l : list Dirent) : bool :=
  match l with
  | [] => true
  | e :: r =>
      if isDirectory e then directories_first r
      else forallb (fun e' => negb (isDirectory e')) r
  end.

(** [s] holds no backslash. *)
Fixpoint no_backslash (s : string) : bool :=
  match s with
  | EmptyString => true
  | String c r => negb (Ascii.eqb c "\"%char) && no_backslash r
  end.

(** A file system whose directories cannot be listed. *)
Definition unlistable (fs : FileSystem) : FileSystem := {|
  fs_exists := fs_exists fs;
  fs_stat := fs_stat fs;
  fs_readFile := fs_readFile fs;
  fs_readdir := fun _ => Err "EACCES";
|}.

(** A runtime whose [url.parse] rejects every URL. *)
Definition rejecting (P : Platform) : Platform := {|
  process_cwd := process_cwd P;
  path_sep := path_sep P;
  path_normalize := path_normalize P;
  path_join := path_join P;
  path_relative := path_relative P;
  path_extname := path_extname P;
  path_posix_join := path_posix_join P;
  url_parse := fun _ => Throw "URIError: URI malformed";
  md5_hex := md5_hex P;
  toUTCString := toUTCString P;
  localeCompare := localeCompare P;
|}.

(** The same file system with every error code replaced by [EIO]. *)
Definition recoded (fs : FileSystem) : FileSystem := {|
  fs_exists := fs_exists fs;
  fs_stat path :=
    match fs_stat fs path with
    | Err _ => Err "EIO"
    | Ok stats => Ok stats
    end;
  fs_readFile path :=
    match fs_readFile fs path with
    | Err _ => Err "EIO"
    | Ok data => Ok data
    end;
  fs_readdir path :=
    match fs_readdir fs path with
    | Err _ => Err "EIO"
    | Ok files => Ok files
    end;
|}.

(** The sample site served without entity tags and without [Expires]. *)
Definition www_plain : Closure :=
  {| rootDir := "/srv/www"; useETag := false; expires := 0 |}.

(** [a] may stay in front of [b] in the listing. *)
Definition listed_before (P : Platform) (a b : Dirent) : Prop :=
  compare_entries P a b <= 0.

(** * The runtime model on documented values *)

(** The test suite of RFC 1321, appendix A.5. *)
Example md5_empty :
  MD5.md5_hex (Buffer_from EmptyString) = "d41d8cd98f00b204e9800998ecf8427e".
Proof. vm_compute. reflexivity. Qed.

Example md5_a :
  MD5.md5_hex (Buffer_from "a") = "0cc175b9c0f1b6a831c399e269772661".
Proof. vm_compute. reflexivity. Qed.

Example md5_abc :
  MD5.md5_hex (Buffer_from "abc") = "900150983cd24fb0d6963f7d28e17f72".
Proof. vm_compute. reflexivity. Qed.

Example md5_message_digest :
  MD5.md5_hex (Buffer_from "message digest") =
  "f96b697d7cb7938d525a2f31aaf161d0".
Proof. vm_compute. reflexivity. Qed.

Example md5_alphabet :
  MD5.md5_hex (Buffer_from "abcdefghijklmnopqrstuvwxyz") =
  "c3fcd3d76192e4007dfb496cca67e13b".
Proof. vm_compute. reflexivity. Qed.

(** The examples of the Node.js documentation of [path]. *)
Example normalize_doc :
  Posix.normalize "/foo/bar//baz/asdf/quux/.." = "/foo/bar/baz/asdf".
Proof. reflexivity. Qed.

Example join_doc :
  Posix.join "/foo/bar" "baz/asdf/quux/.." = "/foo/bar/baz/asdf".
Proof. reflexivity. Qed.

Example relative_doc :
  Posix.relative "/" "/data/orandea/test/aaa" "/data/orandea/impl/bbb" =
  "../../impl/bbb".
Proof. reflexivity. Qed.

Example extname_doc :
  map Posix.extname
    ["index.html"; "index.coffee.md"; "index."; "index"; ".index"; ".index.md"] =
  [".html"; ".md"; "."; EmptyString; EmptyString; ".md"].
Proof. reflexivity. Qed.

Example toUTCString_epoch :
  DateFormat.toUTCString 0 = "Thu, 01 Jan 1970 00:00:00 GMT".
Proof. reflexivity. Qed.

Example toUTCString_doc :
  DateFormat.toUTCString 1497423600000 = "Wed, 14 Jun 2017 07:00:00 GMT".
Proof. reflexivity. Qed.

Example parse_origin_form :
  Posix.parse "/docs/a%20b?sort=name#top" =
  Return {| pathname := Some "/docs/a%20b";
            search := Some "?sort=name";
            hash := Some "#top" |}.
Proof. reflexivity. Qed.

(** [createServer] with no option set: the working directory, entity tags
    on, five seconds of [Expires]. *)
Example createServer_defaults :
  createServer (node "/srv/www") (disk sample)
    {| opt_rootDir := None; opt_etag := None; opt_expires := None |} =
  ([FsExists "/srv/www"],
   Return {| rootDir := "/srv/www"; useETag := true; expires := 5000 |}).
Proof. reflexivity. Qed.

Example createServer_missing_root :
  createServer (node "/") (disk sample)
    {| opt_rootDir := Some "/nowhere"; opt_etag := None; opt_expires := None |} =
  ([FsExists "/nowhere"], Throw "/nowhere does not ").
Proof. reflexivity. Qed.

(** The directory listing of the specification's example: directories
    first, then files, each group in the order of [localeCompare]. *)
Example listing_order :
  map name (array_sort (compare_entries (node "/"))
    [{| name := "b.txt"; isDirectory := false |};
     {| name := "a"; isDirectory := true |};
     {| name := "a.txt"; isDirectory := false |};
     {| name := "z"; isDirectory := true |}]) =
  ["a"; "z"; "a.txt"; "b.txt"].
Proof. reflexivity. Qed.

(** * Properties *)

(** ** Strings and headers *)

Lemma substr0_prefix (s r : string) :
  String.eqb (substr0 s (String.length r)) r = String.prefix r s.
Proof.
  unfold substr0.
  destruct (String.prefix r s) eqn:E.
  - apply String.eqb_eq. now apply String.prefix_correct.
  - apply String.eqb_neq. intros H. apply String.prefix_correct in H. congruence.
Qed.

Lemma append_cons (c : ascii) (r s : string) :
  String c r +:+ s = String c (r +:+ s).
Proof. reflexivity. Qed.

Lemma charAt0_cons (c : ascii) (r : string) :
  charAt0 (String c r) = String c EmptyString.
Proof. unfold charAt0. now destruct r. Qed.

Lemma prefix_append (r s : string) :
  String.prefix r s = true <-> exists rest, s = r +:+ rest.
Proof.
  revert s. induction r as [|c r IH]; intros s; simpl.
  - destruct s; split; eauto.
  - destruct s as [|d s]; simpl.
    + split; [discriminate | intros [rest H]; discriminate].
    + destruct (Ascii.ascii_dec c d) as [->|Hne].
      * rewrite IH. split; intros [rest H]; exists rest;
          rewrite append_cons in *; congruence.
      * split; [discriminate |].
        intros [rest H]. rewrite append_cons in H. congruence.
Qed.

Lemma get_set_header (k k' : string) (v : header_value) (h : Headers) :
  get_header k (set_header k' v h) =
  if String.eqb k' k then Some v else get_header k h.
Proof.
  induction h as [|[k0 v0] r IH]; simpl.
  - reflexivity.
  - destruct (String.eqb k0 k') eqn:E0; simpl.
    + apply String.eqb_eq in E0. subst k0. now destruct (String.eqb k' k).
    + rewrite IH. destruct (String.eqb k0 k) eqn:E1; [| reflexivity].
      apply String.eqb_eq in E1. subst k0. now rewrite String.eqb_sym, E0.
Qed.

Lemma header_names_set (k : string) (v : header_value) (h : Headers) :
  forall x, In x (header_names (set_header k v h)) ->
            x = k \/ In x (header_names h).
Proof.
  unfold header_names.
  induction h as [|[k0 v0] r IH]; simpl; intros x Hx.
  - destruct Hx as [<-|[]]. now left.
  - destruct (String.eqb k0 k); simpl in Hx.
    + destruct Hx as [<-|Hx]; [now left | right; now right].
    + destruct Hx as [<-|Hx]; [right; now left |].
      destruct (IH x Hx); [now left | right; now right].
Qed.

(** ** Traces *)

Lemma response_calls_app (t t' : list event) :
  response_calls (t ++ t') = response_calls t ++ response_calls t'.
Proof. apply filter_app. Qed.

Lemma probes_app (t t' : list event) :
  probes (t ++ t') = probes t ++ probes t'.
Proof. apply filter_app. Qed.

(** ** The file writer *)

Section FileWriter.

Context (P : Platform) (b : build) (env : Closure) (now : Z).

Lemma serveFile_trace (req : IncomingMessage) (extname : string)
    (content : Buffer) :
  serveFile P b env now req extname content =
  (serveFile_log b extname ++
   (if not_modified P env req content
    then [WriteHead 304 "Not modified" (serveFile_headers P b env now extname content);
          End None]
    else [WriteHead 200 "OK"
            (set_header "Content-Length" (HNumber (byteLength content))
               (serveFile_headers P b env now extname content));
          End (Some (ChunkBuffer content))]),
   Return tt).
Proof.
  unfold serveFile, serveFile_log, serveFile_headers, not_modified.
  destruct (mime b extname) as [[t|]|]; simpl;
    destruct (useETag env); simpl;
    try destruct (strict_eq_opt _ _); reflexivity.
Qed.

Lemma serveFile_etag (extname : string) (content : Buffer) :
  get_header "ETag" (serveFile_headers P b env now extname content) =
  if useETag env then Some (HString (md5_hex P content)) else None.
Proof.
  unfold serveFile_headers.
  destruct (useETag env).
  - now rewrite get_set_header.
  - destruct (truthy_num (expires env)); rewrite ?get_set_header; simpl;
      destruct (mime b extname) as [[t|]|]; rewrite ?get_set_header; simpl;
      now destruct b.
Qed.

Lemma serveFile_content_type (extname : string) (content : Buffer) :
  get_header "Content-Type" (serveFile_headers P b env now extname content) =
  match mime b extname with
  | Some (Some t) => Some (HString t)
  | _ => None
  end.
Proof.
  unfold serveFile_headers.
  destruct (useETag env), (truthy_num (expires env)),
    (mime b extname) as [[t|]|]; rewrite ?get_set_header; simpl;
    rewrite ?get_set_header; simpl; now destruct b.
Qed.

Lemma serveFile_expires (extname : string) (content : Buffer) :
  get_header "Expires" (serveFile_headers P b env now extname content) =
  if truthy_num (expires env)
  then Some (HString (toUTCString P (now + expires env)))
  else None.
Proof.
  unfold serveFile_headers.
  destruct (useETag env), (truthy_num (expires env)),
    (mime b extname) as [[t|]|]; rewrite ?get_set_header; simpl;
    rewrite ?get_set_header; simpl; now destruct b.
Qed.

(** [Content-Length] is not among the headers of the 304 answer. *)
Lemma serveFile_no_content_length (extname : string) (content : Buffer) :
  get_header "Content-Length"
    (serveFile_headers P b env now extname content) = None.
Proof.
  unfold serveFile_headers.
  destruct (useETag env), (truthy_num (expires env)),
    (mime b extname) as [[t|]|]; rewrite ?get_set_header; simpl;
    rewrite ?get_set_header; simpl; now destruct b.
Qed.

End FileWriter.

(** ** The monad *)

Lemma bind_ret_l {A B} (a : A) (f : A -> M B) : bind (ret a) f = f a.
Proof. unfold bind, ret. now destruct (f a). Qed.

Lemma bind_assoc {A B C} (m : M A) (f : A -> M B) (g : B -> M C) :
  bind (bind m f) g = bind m (fun a => bind (f a) g).
Proof.
  destruct m as [t [a|e]]; simpl; [| reflexivity].
  destruct (f a) as [t' [a'|e']]; simpl; [| reflexivity].
  destruct (g a') as [t'' r]. now rewrite app_assoc.
Qed.

Lemma bind_throw {A B} (e : string) (f : A -> M B) :
  bind (lift (Throw e)) f = lift (Throw e).
Proof. reflexivity. Qed.

Lemma bind_return {A B} (a : A) (f : A -> M B) :
  bind (lift (Return a)) f = f a.
Proof. apply bind_ret_l. Qed.

(** ** [doHandle] is [resolve] followed by the writer *)

Section Split.

Context (P : Platform) (fs : FileSystem) (b : build) (env : Closure) (now : Z).

Ltac writer_done :=
  simpl;
  try match goal with
  | |- context [serveFile ?P ?b ?env ?now ?req ?x ?c] =>
      destruct (serveFile P b env now req x c) as [? ?]
  | |- context [serveDir ?P ?b ?env ?now ?req ?d ?es] =>
      destruct (serveDir P b env now req d es) as [? ?]
  end;
  reflexivity.

Lemma doHandle_resolve (req : IncomingMessage) :
  doHandle P fs b env now req =
  bind (resolve P fs env (method req) (url req)) (respond P b env now req).
Proof.
  unfold doHandle, resolve, resolve_path, resolve_directory,
    requestedPath_of, expectedRequestPath_of.
  destruct (negb (strict_eq_opt (method req) "GET") || negb (truthy_opt (url req)));
    [rewrite bind_ret_l; reflexivity |].
  destruct (url_parse P (default EmptyString (url req))) as [parsed|err];
    [rewrite !bind_return | reflexivity].
  destruct (pathname parsed) as [p|]; [| rewrite bind_ret_l; reflexivity].
  destruct (negb (truthy p)); [rewrite bind_ret_l; reflexivity |].
  destruct (negb (String.eqb _ _)); [rewrite bind_ret_l; reflexivity |].
  unfold fsSafeRead, fsSafeStat, fsSafeReadDir.
  destruct (fs_readFile fs _) as [code|content]; [| writer_done].
  destruct (fs_stat fs _) as [code'|stats]; [writer_done |].
  destruct (negb (stats_isDirectory stats)) eqn:Hdir;
    [simpl; rewrite Hdir; writer_done |].
  simpl. rewrite Hdir.
  destruct (negb (String.eqb p _)); [writer_done |].
  destruct (fs_readFile fs _) as [code'|content]; [| writer_done].
  destruct (fs_readdir fs _) as [code''|entries]; writer_done.
Qed.

End Split.

(** ** What [resolve] and the writers put on the trace *)

Lemma only_probes_response_calls (t : list event) :
  only_probes t -> response_calls t = [].
Proof.
  induction 1 as [|e t He _ IH]; [reflexivity |].
  unfold response_calls in *. destruct e; try discriminate; simpl;
    rewrite filter_cons_False by (simpl; discriminate); exact IH.
Qed.

Lemma only_probes_quiet (t : list event) :
  only_probes t -> statuses t = [] /\ sent_headers t = [] /\ bodies t = [].
Proof.
  induction 1 as [|e t He _ (IH1 & IH2 & IH3)]; [now repeat split |].
  destruct e; try discriminate; simpl; now repeat split.
Qed.

Lemma only_probes_probes (t : list event) : only_probes t -> probes t = t.
Proof.
  induction 1 as [|e t He _ IH]; [reflexivity |].
  unfold probes in *. rewrite filter_cons_True by exact He. now rewrite IH.
Qed.

Lemma only_logs_quiet (t : list event) :
  only_logs t ->
  response_calls t = [] /\ probes t = [] /\
  statuses t = [] /\ sent_headers t = [] /\ bodies t = [].
Proof.
  induction 1 as [|e t [msg ->] _ (IH1 & IH2 & IH3 & IH4 & IH5)];
    [now repeat split |].
  unfold response_calls, probes in *.
  rewrite !filter_cons_False by (simpl; discriminate).
  now repeat split.
Qed.

Lemma statuses_app (t t' : list event) :
  statuses (t ++ t') = statuses t ++ statuses t'.
Proof. apply omap_app. Qed.

Lemma sent_headers_app (t t' : list event) :
  sent_headers (t ++ t') = sent_headers t ++ sent_headers t'.
Proof. apply omap_app. Qed.

Lemma bodies_app (t t' : list event) :
  bodies (t ++ t') = bodies t ++ bodies t'.
Proof. apply omap_app. Qed.

Lemma etags_app (t t' : list event) : etags (t ++ t') = etags t ++ etags t'.
Proof. unfold etags. now rewrite sent_headers_app, map_app. Qed.

Section Paths.

Context (P : Platform) (fs : FileSystem) (b : build) (env : Closure) (now : Z).

Lemma serveFile_log_only_logs (extname : string) :
  only_logs (serveFile_log b extname).
Proof.
  unfold serveFile_log, only_logs.
  destruct (mime b extname); repeat constructor. eauto.
Qed.

Lemma resolve_only_probes (m u : option string) :
  only_probes (fst (resolve P fs env m u)).
Proof.
  unfold resolve, resolve_path, resolve_directory, only_probes.
  destruct (negb (strict_eq_opt m "GET") || negb (truthy_opt u));
    [constructor |].
  destruct (url_parse P (default EmptyString u)) as [parsed|err];
    [rewrite bind_return | constructor].
  destruct (pathname parsed) as [p|]; [| constructor].
  destruct (negb (truthy p)); [constructor |].
  destruct (negb (String.eqb _ _)); [constructor |].
  unfold fsSafeRead, fsSafeStat, fsSafeReadDir.
  destruct (fs_readFile fs _) as [code|content]; [| repeat constructor].
  destruct (fs_stat fs _) as [code'|stats]; [repeat constructor |].
  destruct (negb (stats_isDirectory stats)) eqn:Hdir;
    [simpl; rewrite Hdir; repeat constructor |].
  simpl. rewrite Hdir.
  destruct (negb (String.eqb p _)); [repeat constructor |].
  destruct (fs_readFile fs _) as [code'|content]; [| repeat constructor].
  destruct (fs_readdir fs _) as [code''|entries]; repeat constructor.
Qed.

(** The trace of a writer: what it logs, then one [writeHead] and one
    [end]. *)
Lemma respond_trace (req : IncomingMessage) (t : target) :
  exists log status statusText h body,
    only_logs log /\
    respond P b env now req t =
    (log ++ [WriteHead status statusText h; End body], Return tt).
Proof.
  destruct t as [extra|location|extname content|dirPath entries]; simpl.
  - exists [], 404, "Not found", []. eexists. split; [constructor | reflexivity].
  - exists [], 302, "Found". do 2 eexists. split; [constructor | reflexivity].
  - rewrite serveFile_trace. exists (serveFile_log b extname).
    destruct (not_modified P env req content); do 4 eexists;
      (split; [apply serveFile_log_only_logs | reflexivity]).
  - unfold serveDir. rewrite serveFile_trace. exists (serveFile_log b ".html").
    destruct (not_modified P env req _); do 4 eexists;
      (split; [apply serveFile_log_only_logs | reflexivity]).
Qed.

(** [handle] by cases on what [resolve] did. *)
Lemma handle_resolve (req : IncomingMessage) :
  handle P fs b env now req =
  match resolve P fs env (method req) (url req) with
  | (pre, Return t) => (pre ++ fst (respond P b env now req t), Return tt)
  | (pre, Throw err) =>
      (pre ++ [ConsoleError err;
               WriteHead 500 "Internal Server Error" [];
               End (Some (ChunkString "Internal Server Error"))],
       Return tt)
  end.
Proof.
  unfold handle. rewrite doHandle_resolve.
  destruct (resolve P fs env (method req) (url req)) as [pre [t|err]]; simpl.
  - destruct (respond_trace req t) as (log & s & x & h & body & _ & ->).
    reflexivity.
  - reflexivity.
Qed.

End Paths.

(** ** C7: exactly one response *)

(** C7: on every control path of [handle] (the writers, the 304 early
    return, the listing handed to the file writer, the catch that answers
    500) [writeHead] is called exactly once and [end] exactly once, in that
    order, and [handle] itself never throws. *)
Theorem C7_one_writeHead_one_end (P : Platform) (fs : FileSystem) (b : build)
    (env : Closure) (now : Z) (req : IncomingMessage) :
  exists status statusText h body,
    response_calls (fst (handle P fs b env now req)) =
      [WriteHead status statusText h; End body] /\
    snd (handle P fs b env now req) = Return tt.
Proof.
  rewrite handle_resolve.
  pose proof (resolve_only_probes P fs env (method req) (url req)) as Hpre.
  destruct (resolve P fs env (method req) (url req)) as [pre [t|err]];
    simpl in *; rewrite response_calls_app,
      (only_probes_response_calls pre Hpre); simpl.
  - destruct (respond_trace P b env now req t)
      as (log & s & x & h & body & Hlog & ->).
    exists s, x, h, body. simpl. rewrite response_calls_app.
    destruct (only_logs_quiet log Hlog) as (-> & _). now split.
  - now exists 500, "Internal Server Error", [],
      (Some (ChunkString "Internal Server Error")).
Qed.

(** ** Status, body and entity tag of a response *)

Section Observables.

Context (P : Platform) (fs : FileSystem) (b : build) (env : Closure) (now : Z).

Lemma serveFile_observables (req : IncomingMessage) (extname : string)
    (content : Buffer) :
  let t := fst (serveFile P b env now req extname content) in
  statuses t = [if not_modified P env req content then 304 else 200] /\
  bodies t = [if not_modified P env req content then [] else content] /\
  etags t =
    [if useETag env then Some (HString (md5_hex P content)) else None].
Proof.
  rewrite serveFile_trace. cbv zeta. unfold fst.
  rewrite statuses_app, bodies_app, etags_app.
  destruct (only_logs_quiet _ (serveFile_log_only_logs b extname))
    as (_ & _ & Hs & Hh & Hb).
  unfold etags at 1. rewrite Hs, Hh, Hb.
  destruct (not_modified P env req content); simpl; unfold etags; simpl;
    rewrite ?get_set_header; simpl; rewrite serveFile_etag; now repeat split.
Qed.

Lemma respond_serveDir (req : IncomingMessage) (dirPath : string)
    (entries : list Dirent) :
  respond P b env now req (ServeDir dirPath entries) =
  serveFile P b env now req ".html" (listing_bytes P env dirPath entries).
Proof. reflexivity. Qed.

Lemma respond_observables (req : IncomingMessage) (t : target) :
  let tr := fst (respond P b env now req t) in
  statuses tr = [target_status P env req t] /\
  bodies tr = [target_body P env req t] /\
  etags tr = [target_etag P env t].
Proof.
  destruct t as [extra|location|extname content|dirPath entries].
  - now repeat split.
  - now repeat split.
  - apply serveFile_observables.
  - rewrite respond_serveDir. apply serveFile_observables.
Qed.

(** Status, body and entity tag of the response to [req], given what
    [resolve] returned. *)
Lemma handle_observables (req : IncomingMessage) :
  let tr := fst (handle P fs b env now req) in
  match snd (resolve P fs env (method req) (url req)) with
  | Return t =>
      statuses tr = [target_status P env req t] /\
      bodies tr = [target_body P env req t] /\
      etags tr = [target_etag P env t]
  | Throw _ =>
      statuses tr = [500] /\
      bodies tr = [Buffer_from "Internal Server Error"] /\
      etags tr = [None]
  end.
Proof.
  rewrite handle_resolve.
  pose proof (resolve_only_probes P fs env (method req) (url req)) as Hpre.
  destruct (resolve P fs env (method req) (url req)) as [pre [t|err]];
    cbv zeta; unfold fst, snd in *;
    destruct (only_probes_quiet pre Hpre) as (Hs & Hh & Hb);
    rewrite statuses_app, bodies_app, etags_app; unfold etags at 1;
    rewrite Hs, Hh, Hb; simpl.
  - apply respond_observables.
  - now repeat split.
Qed.

End Observables.

(** ** C9: the response does not depend on the clock *)

(** C9: served twice with the same configuration, the same file system and
    the same request, at two different times, the handler sends the same
    status, byte-identical bodies and the same [ETag]; only [Expires]
    follows the clock. *)
Theorem C9_body_and_etag_deterministic (P : Platform) (fs : FileSystem)
    (b : build) (env : Closure) (req : IncomingMessage) (now1 now2 : Z) :
  bodies (fst (handle P fs b env now1 req)) =
    bodies (fst (handle P fs b env now2 req)) /\
  etags (fst (handle P fs b env now1 req)) =
    etags (fst (handle P fs b env now2 req)) /\
  statuses (fst (handle P fs b env now1 req)) =
    statuses (fst (handle P fs b env now2 req)).
Proof.
  pose proof (handle_observables P fs b env now1 req) as H1.
  pose proof (handle_observables P fs b env now2 req) as H2.
  cbv zeta in *.
  destruct (snd (resolve P fs env (method req) (url req)));
    destruct H1 as (-> & -> & ->), H2 as (-> & -> & ->); now repeat split.
Qed.

(** ** The decision path, step by step *)

Section Steps.

Context (P : Platform) (fs : FileSystem) (env : Closure).

(** A [GET] with a URL whose parsed pathname is non-empty goes on to the
    containment check. *)
Lemma resolve_get (m u : option string) (s : string) (parsed : Url)
    (p : string) :
  m = Some "GET" -> u = Some s -> truthy s = true ->
  url_parse P s = Return parsed ->
  pathname parsed = Some p -> truthy p = true ->
  resolve P fs env m u = resolve_path P fs env p.
Proof.
  intros -> -> Hs Hparse Hp Htp. unfold resolve. simpl.
  rewrite Hs. simpl. rewrite Hparse, Hp, Htp. simpl.
  now destruct (resolve_path P fs env p).
Qed.

(** A [GET] whose parsed pathname is [null] or empty stops there. *)
Lemma resolve_no_pathname (m u : option string) (s : string) (parsed : Url) :
  m = Some "GET" -> u = Some s -> truthy s = true ->
  url_parse P s = Return parsed ->
  truthy_opt (pathname parsed) = false ->
  resolve P fs env m u = ret (NotFound "2").
Proof.
  intros -> -> Hs Hparse Hp. unfold resolve. simpl.
  rewrite Hs. simpl. rewrite Hparse.
  destruct (pathname parsed) as [p|]; [| reflexivity].
  simpl in Hp. now rewrite Hp.
Qed.

Lemma resolve_path_escape (p : string) :
  String.prefix (rootDir env) (requestedPath_of P env p) = false ->
  resolve_path P fs env p = ret (NotFound "3").
Proof.
  intros H. unfold resolve_path. cbv zeta. now rewrite substr0_prefix, H.
Qed.

Lemma resolve_path_file (p : string) (content : Buffer) :
  String.prefix (rootDir env) (requestedPath_of P env p) = true ->
  fs_readFile fs (requestedPath_of P env p) = Ok content ->
  resolve_path P fs env p =
  ([FsReadFile (requestedPath_of P env p)],
   Return (ServeFile (path_extname P (requestedPath_of P env p)) content)).
Proof.
  intros H Hread. unfold resolve_path, fsSafeRead. cbv zeta.
  now rewrite substr0_prefix, H, Hread.
Qed.

Lemma resolve_path_directory (p code : string) (stats : Stats) :
  String.prefix (rootDir env) (requestedPath_of P env p) = true ->
  fs_readFile fs (requestedPath_of P env p) = Err code ->
  fs_stat fs (requestedPath_of P env p) = Ok stats ->
  stats_isDirectory stats = true ->
  resolve_path P fs env p =
  bind ([FsReadFile (requestedPath_of P env p);
         FsStat (requestedPath_of P env p)], Return tt)
       (fun _ => resolve_directory P fs env p (requestedPath_of P env p)).
Proof.
  intros H Hread Hstat Hdir. unfold resolve_path, fsSafeRead, fsSafeStat.
  cbv zeta. rewrite substr0_prefix, H, Hread. simpl. rewrite Hstat. simpl.
  rewrite Hdir. simpl.
  now destruct (resolve_directory P fs env p (requestedPath_of P env p)).
Qed.

(** The first probe of a contained path reads the candidate. *)
Lemma resolve_path_first_probe (p : string) :
  String.prefix (rootDir env) (requestedPath_of P env p) = true ->
  exists t, fst (resolve_path P fs env p) =
            FsReadFile (requestedPath_of P env p) :: t.
Proof.
  intros H. unfold resolve_path, fsSafeRead. cbv zeta.
  rewrite substr0_prefix, H. simpl.
  destruct (fs_readFile fs _); simpl.
  - destruct (bind _ _) as [t r]. now exists t.
  - now eexists.
Qed.

End Steps.

(** ** C1: requests that leave the root *)

(** C1: a request whose normalized candidate path does not have [rootDir]
    as a literal string prefix is answered 404 Not Found, and the file
    system is not probed at all; for a [GET] with a non-empty URL and
    pathname the answer is the one of the containment check. *)
Theorem C1_escape_is_not_found (P : Platform) (fs : FileSystem) (b : build)
    (env : Closure) (now : Z) (req : IncomingMessage) (u : string)
    (parsed : Url) (p : string) :
  url req = Some u ->
  url_parse P u = Return parsed ->
  pathname parsed = Some p ->
  String.prefix (rootDir env) (requestedPath_of P env p) = false ->
  let r := handle P fs b env now req in
  snd r = Return tt /\
  statuses (fst r) = [404] /\
  probes (fst r) = [] /\
  (method req = Some "GET" -> truthy u = true -> truthy p = true ->
   fst r = not_found_trace "3").
Proof.
  intros Hu Hparse Hp Hout r. subst r.
  unfold handle, doHandle. rewrite Hu. simpl.
  destruct (strict_eq_opt (method req) "GET") eqn:Hm; simpl.
  2:{ repeat split; try reflexivity. intros Hget. rewrite Hget in Hm. discriminate. }
  destruct (truthy u) eqn:Htu; simpl.
  2:{ repeat split; try reflexivity. discriminate. }
  rewrite Hparse. simpl. rewrite Hp.
  destruct (truthy p) eqn:Htp; simpl.
  2:{ repeat split; try reflexivity. discriminate. }
  rewrite substr0_prefix. unfold requestedPath_of in Hout. rewrite Hout. simpl.
  repeat split; reflexivity.
Qed.

(** The traversal request [/../../etc/passwd] under root [/srv/www]. *)
Lemma C1_escape_is_not_found_witness :
  let r := handle (node "/") (disk sample) IndexJs www 0
             (GET "/../../etc/passwd" ∅) in
  snd r = Return tt /\
  statuses (fst r) = [404] /\
  probes (fst r) = [] /\
  (Some "GET" = Some "GET" -> true = true -> true = true ->
   fst r = not_found_trace "3").
Proof.
  apply (C1_escape_is_not_found (node "/") (disk sample) IndexJs www 0
           (GET "/../../etc/passwd" ∅) "/../../etc/passwd"
           {| pathname := Some "/../../etc/passwd"; search := None; hash := None |}
           "/../../etc/passwd");
    reflexivity.
Defined.

(** ** C3: directories without their trailing slash *)

(** C3, as the specification states it, fails at the root directory: the
    request [/] resolves to the directory [/srv/www/], its pathname differs
    from ["/" + relative + "/"], which is [//] there, and yet the handler
    does not redirect: it goes on to [index.html] and the listing. *)
Lemma C3_root_is_not_redirected :
  let P := node "/" in
  let c := requestedPath_of P www "/" in
  let r := handle P (disk sample) IndexJs www 0 (GET "/" ∅) in
  fs_readFile (disk sample) c = Err "EISDIR" /\
  fs_stat (disk sample) c = Ok {| stats_isDirectory := true |} /\
  spec_expected P www c = "//" /\
  "/" <> spec_expected P www c /\
  statuses (fst r) = [200] /\
  probes (fst r) =
    [FsReadFile "/srv/www/"; FsStat "/srv/www/";
     FsReadFile "/srv/www/index.html"; FsReadDir "/srv/www/"].
Proof. vm_compute. repeat split; discriminate. Qed.

(** C3, amended: for a request that resolves to an existing directory (the
    read of the candidate fails, [stat] reports a directory), if the
    pathname differs from the expected path, the answer is 302 Found with
    [Location] set to it, after the two probes of the candidate and nothing
    else: no [index.html] is read, no directory is listed.  The expected
    path is [relative + "/"], with a leading slash added unless it already
    starts with one: ["/" + relative + "/"] whenever [relative] is not
    empty and does not start with a slash, and [/] for the root itself. *)
Theorem C3_directory_redirect (P : Platform) (fs : FileSystem) (b : build)
    (env : Closure) (now : Z) (req : IncomingMessage) (u : string)
    (parsed : Url) (p code : string) (stats : Stats) :
  method req = Some "GET" ->
  url req = Some u -> truthy u = true ->
  url_parse P u = Return parsed ->
  pathname parsed = Some p -> truthy p = true ->
  let c := requestedPath_of P env p in
  let relative := replace_backslashes (path_relative P (rootDir env) c) in
  String.prefix (rootDir env) c = true ->
  fs_readFile fs c = Err code ->
  fs_stat fs c = Ok stats ->
  stats_isDirectory stats = true ->
  p <> expectedRequestPath_of P env c ->
  handle P fs b env now req =
    ([FsReadFile c; FsStat c] ++ redirect_trace (expectedRequestPath_of P env c),
     Return tt) /\
  (relative = EmptyString -> expectedRequestPath_of P env c = "/") /\
  (charAt0 relative <> "/" -> relative <> EmptyString ->
   expectedRequestPath_of P env c = spec_expected P env c).
Proof.
  intros Hm Hu Htu Hparse Hp Htp c relative Hin Hread Hstat Hdir Hne.
  split; [| split].
  - rewrite handle_resolve.
    rewrite (resolve_get P fs env _ _ u parsed p Hm Hu Htu Hparse Hp Htp).
    rewrite (resolve_path_directory P fs env p code stats Hin Hread Hstat Hdir).
    unfold resolve_directory. fold c.
    apply String.eqb_neq in Hne. rewrite Hne. reflexivity.
  - intros Hrel. unfold expectedRequestPath_of. fold c. fold relative.
    now rewrite Hrel.
  - intros Hslash Hrel. unfold expectedRequestPath_of, spec_expected.
    fold c. fold relative.
    destruct relative as [|x rest]; [congruence |].
    rewrite append_cons, charAt0_cons. rewrite charAt0_cons in Hslash.
    apply String.eqb_neq in Hslash. now rewrite Hslash.
Qed.

(** The request [/sub] for the directory [/srv/www/sub]. *)
Lemma C3_directory_redirect_witness :
  handle (node "/") (disk sample) IndexJs www 0 (GET "/sub" ∅) =
    ([FsReadFile "/srv/www/sub"; FsStat "/srv/www/sub"] ++
     redirect_trace "/sub/", Return tt).
Proof.
  apply (C3_directory_redirect (node "/") (disk sample) IndexJs www 0
           (GET "/sub" ∅) "/sub"
           {| pathname := Some "/sub"; search := None; hash := None |}
           "/sub" "EISDIR" {| stats_isDirectory := true |});
    try reflexivity.
  vm_compute. discriminate.
Defined.

(** ** C6: the pathname *)

Lemma respond_headers (P : Platform) (b : build) (env : Closure) (now : Z)
    (req req' : IncomingMessage) (t : target) :
  headers req = headers req' ->
  respond P b env now req t = respond P b env now req' t.
Proof.
  intros H. destruct t; simpl; unfold serveDir, serveFile; now rewrite ?H.
Qed.

Lemma break_query_fragment (u : string) :
  fst (Posix.break (fun c => Ascii.eqb c "?"%char)
         (fst (Posix.break (fun c => Ascii.eqb c "#"%char) u))) =
  fst (Posix.break (fun c => Ascii.eqb c "?"%char || Ascii.eqb c "#"%char) u).
Proof.
  induction u as [|c u IH]; [reflexivity |].
  simpl. destruct (Ascii.eqb c "#"%char).
  - now rewrite orb_true_r.
  - rewrite orb_false_r.
    destruct (Posix.break (fun c => Ascii.eqb c "#"%char) u) as [r h].
    simpl in *. destruct (Ascii.eqb c "?"%char); [reflexivity |].
    destruct (Posix.break (fun c => Ascii.eqb c "?"%char) r) as [p q].
    destruct (Posix.break _ u) as [p' q']. simpl in *. now subst.
Qed.

(** On the POSIX runtime the parsed pathname is the URL up to its first
    [?] or [#], character for character. *)
Lemma posix_pathname (u : string) :
  exists q f,
    Posix.parse u =
    Return {| pathname :=
                Posix.nonempty
                  (fst (Posix.break
                          (fun c => Ascii.eqb c "?"%char || Ascii.eqb c "#"%char)
                          u));
              search := q; hash := f |}.
Proof.
  unfold Posix.parse. rewrite <- break_query_fragment.
  destruct (Posix.break (fun c => Ascii.eqb c "#"%char) u) as [rest h].
  simpl. destruct (Posix.break (fun c => Ascii.eqb c "?"%char) rest) as [p q].
  now eexists _, _.
Qed.

Lemma break_append (stop : ascii -> bool) (s : string) :
  s = fst (Posix.break stop s) +:+ snd (Posix.break stop s).
Proof.
  induction s as [|c s IH]; [reflexivity |]. simpl.
  destruct (stop c); [reflexivity |].
  destruct (Posix.break stop s) as [pre post]. simpl in *.
  now rewrite append_cons, <- IH.
Qed.

(** On the POSIX runtime, the pathname of a URL in origin form is the URL
    up to its first [?] or [#]: a non-empty literal prefix of the URL. *)
Lemma posix_pathname_origin_form (u : string) (parsed : Url) :
  origin_form u = true ->
  Posix.parse u = Return parsed ->
  pathname parsed = Some (path_component u) /\
  truthy (path_component u) = true /\
  exists rest, u = path_component u +:+ rest.
Proof.
  intros Hform Hparse.
  destruct (posix_pathname u) as (q & f & Hp). rewrite Hp in Hparse.
  injection Hparse as <-. cbn [pathname]. fold (path_component u).
  assert (truthy (path_component u) = true) as Ht.
  { destruct u as [|c r]; [discriminate |]. unfold origin_form in Hform.
    destruct (Ascii.eqb_spec c "/"%char) as [->|Hne].
    - unfold path_component. simpl.
      now destruct (Posix.break _ r).
    - exfalso. destruct c as [[] [] [] [] [] [] [] []]; try discriminate.
      now apply Hne. }
  repeat split.
  - unfold Posix.nonempty. now rewrite Ht.
  - exact Ht.
  - eexists. unfold path_component. apply break_append.
Qed.

(** C6, as the specification states it, fails: the pathname is not
    percent-decoded.  For [/a%20b.txt] the decoded pathname is [/a b.txt],
    a file that exists under the root; the handler probes
    [/srv/www/a%20b.txt] instead and answers 404. *)
Lemma C6_pathname_is_not_decoded :
  let P := node "/" in
  let r := handle P (disk sample) IndexJs www 0 (GET "/a%20b.txt" ∅) in
  spec_pathname "/a%20b.txt" = "/a b.txt" /\
  fs_readFile (disk sample)
    (requestedPath_of P www (spec_pathname "/a%20b.txt")) =
    Ok (Buffer_from "spaced") /\
  probes (fst r) =
    [FsReadFile "/srv/www/a%20b.txt"; FsStat "/srv/www/a%20b.txt"] /\
  statuses (fst r) = [404].
Proof. vm_compute. now repeat split. Qed.

(** The first probe of a [GET] whose candidate passes the prefix check
    reads that candidate. *)
Lemma handle_first_probe (P : Platform) (fs : FileSystem) (b : build)
    (env : Closure) (now : Z) (req : IncomingMessage) (u : string)
    (parsed : Url) (p : string) :
  method req = Some "GET" -> url req = Some u -> truthy u = true ->
  url_parse P u = Return parsed ->
  pathname parsed = Some p -> truthy p = true ->
  String.prefix (rootDir env) (requestedPath_of P env p) = true ->
  exists t, fst (handle P fs b env now req) =
            FsReadFile (requestedPath_of P env p) :: t.
Proof.
  intros Hm Hu Htu Hparse Hp Htp Hin. rewrite handle_resolve.
  rewrite (resolve_get P fs env _ _ u parsed p Hm Hu Htu Hparse Hp Htp).
  destruct (resolve_path_first_probe P fs env p Hin) as [t Ht].
  destruct (resolve_path P fs env p) as [pre [tg|err]]; simpl in *;
    subst pre; eauto.
Qed.

(** C6, amended: for a [GET] request with a non-empty URL, the pathname
    used for resolution is the [pathname] of [url.parse(req.url)], used as
    returned: the handler decodes nothing itself.  On Node.js, for a URL in
    origin form, that pathname is the URL up to its first [?] or [#],
    character for character: percent escapes stay as they are, and the
    candidate read is built from them; the query string and the fragment
    are discarded.  A [null] or empty pathname yields 404. *)
Theorem C6_pathname_as_parsed (P : Platform) (fs : FileSystem) (b : build)
    (env : Closure) (now : Z) (req : IncomingMessage) (u : string)
    (parsed : Url) :
  method req = Some "GET" ->
  url req = Some u -> truthy u = true ->
  url_parse P u = Return parsed ->
  (truthy_opt (pathname parsed) = false ->
   handle P fs b env now req = (not_found_trace "2", Return tt)) /\
  (forall p, pathname parsed = Some p -> truthy p = true ->
     String.prefix (rootDir env) (requestedPath_of P env p) = true ->
     exists t, fst (handle P fs b env now req) =
               FsReadFile (requestedPath_of P env p) :: t) /\
  (forall req' u' parsed',
     method req' = Some "GET" ->
     url req' = Some u' -> truthy u' = true ->
     url_parse P u' = Return parsed' ->
     pathname parsed' = pathname parsed ->
     headers req' = headers req ->
     handle P fs b env now req' = handle P fs b env now req) /\
  (forall cwd,
     origin_form u = true ->
     exists rest q f,
       u = path_component u +:+ rest /\
       truthy (path_component u) = true /\
       url_parse (node cwd) u =
         Return {| pathname := Some (path_component u);
                   search := q; hash := f |} /\
       (String.prefix (rootDir env)
          (requestedPath_of (node cwd) env (path_component u)) = true ->
        exists t,
          fst (handle (node cwd) fs b env now req) =
          FsReadFile (requestedPath_of (node cwd) env (path_component u)) :: t)).
Proof.
  intros Hm Hu Htu Hparse.
  split; [| split; [| split]].
  2:{ intros p Hp Htp Hin.
      now apply (handle_first_probe P fs b env now req u parsed p). }
  - intros Hp. rewrite handle_resolve.
    now rewrite (resolve_no_pathname P fs env _ _ u parsed Hm Hu Htu Hparse Hp).
  - intros req' u' parsed' Hm' Hu' Htu' Hparse' Hsame Hh.
    rewrite !handle_resolve.
    assert (resolve P fs env (method req') (url req') =
            resolve P fs env (method req) (url req)) as ->.
    { destruct (pathname parsed) as [p|] eqn:Hp.
      - destruct (truthy p) eqn:Htp.
        + rewrite (resolve_get P fs env _ _ u parsed p Hm Hu Htu Hparse Hp Htp).
          now apply (resolve_get P fs env _ _ u' parsed' p).
        + rewrite (resolve_no_pathname P fs env _ _ u parsed Hm Hu Htu Hparse)
            by now rewrite Hp.
          apply (resolve_no_pathname P fs env _ _ u' parsed'); try assumption.
          now rewrite Hsame.
      - rewrite (resolve_no_pathname P fs env _ _ u parsed Hm Hu Htu Hparse)
          by now rewrite Hp.
        apply (resolve_no_pathname P fs env _ _ u' parsed'); try assumption.
        now rewrite Hsame. }
    destruct (resolve P fs env (method req) (url req)) as [pre [t|err]];
      [| reflexivity].
    now rewrite (respond_headers P b env now req' req t Hh).
  - intros cwd Hform.
    destruct (posix_pathname u) as (q & f & Hposix).
    destruct (posix_pathname_origin_form u _ Hform Hposix)
      as (Hp & Htp & rest & Hrest).
    cbn [pathname] in Hp.
    exists rest, q, f. repeat split; try assumption.
    + simpl. rewrite Hposix. now rewrite Hp.
    + intros Hin.
      apply (handle_first_probe (node cwd) fs b env now req u _
               (path_component u) Hm Hu Htu Hposix); assumption.
Qed.

(** [/a%20b.txt] is read under that very name, and the listing of
    [/docs/] is the same with a fragment as with a query string. *)
Lemma C6_pathname_as_parsed_witness :
  (exists t,
     fst (handle (node "/") (disk sample) IndexJs www 0 (GET "/a%20b.txt" ∅)) =
     FsReadFile "/srv/www/a%20b.txt" :: t) /\
  handle (node "/") (disk sample) IndexJs www 0 (GET "/docs/#top" ∅) =
  handle (node "/") (disk sample) IndexJs www 0 (GET "/docs/?sort=name" ∅).
Proof.
  split.
  - destruct (C6_pathname_as_parsed (node "/") (disk sample) IndexJs www 0
                (GET "/a%20b.txt" ∅) "/a%20b.txt"
                {| pathname := Some "/a%20b.txt"; search := None; hash := None |}
                eq_refl eq_refl eq_refl eq_refl) as (_ & _ & _ & H).
    destruct (H "/" eq_refl) as (rest & q & f & _ & _ & _ & Hprobe).
    exact (Hprobe eq_refl).
  - apply (C6_pathname_as_parsed (node "/") (disk sample) IndexJs www 0
             (GET "/docs/?sort=name" ∅) "/docs/?sort=name"
             {| pathname := Some "/docs/"; search := Some "?sort=name";
                hash := None |}
             eq_refl eq_refl eq_refl eq_refl)
      with (u' := "/docs/#top")
           (parsed' := {| pathname := Some "/docs/"; search := None;
                          hash := Some "#top" |});
      reflexivity.
Defined.

(** ** C4: conditional requests *)

(** C4: with the [etag] option on, [serveFile] answers 304 Not Modified
    with no body when the request's [If-None-Match] is exactly the
    hex-encoded hash of the content, and 200 OK with the content otherwise;
    both answers carry that hash as [ETag].  So a request that was answered
    200 with an [ETag], sent again with [If-None-Match] set to it, is
    answered 304 with an empty body. *)
Theorem C4_etag_conditional (P : Platform) (fs : FileSystem) (b : build)
    (env : Closure) (now : Z) :
  useETag env = true ->
  (forall req extname content,
     let etag := md5_hex P content in
     let r := serveFile P b env now req extname content in
     snd r = Return tt /\
     (headers req !! "if-none-match" = Some etag ->
      exists h, response_calls (fst r) =
                  [WriteHead 304 "Not modified" h; End None] /\
                get_header "ETag" h = Some (HString etag)) /\
     (headers req !! "if-none-match" <> Some etag ->
      exists h, response_calls (fst r) =
                  [WriteHead 200 "OK" h; End (Some (ChunkBuffer content))] /\
                get_header "ETag" h = Some (HString etag))) /\
  (forall req now' etag,
     statuses (fst (handle P fs b env now req)) = [200] ->
     etags (fst (handle P fs b env now req)) = [Some (HString etag)] ->
     let r' := handle P fs b env now' (with_if_none_match etag req) in
     statuses (fst r') = [304] /\
     bodies (fst r') = [[]] /\
     etags (fst r') = [Some (HString etag)]).
Proof.
  intros Huse. split.
  - intros req extname content etag r. subst r etag.
    rewrite serveFile_trace. unfold not_modified. rewrite Huse. simpl.
    destruct (only_logs_quiet _ (serveFile_log_only_logs b extname))
      as (Hlog & _).
    split; [reflexivity |]. split; intros Hinm.
    + rewrite Hinm. simpl. rewrite String.eqb_refl.
      eexists. rewrite response_calls_app, Hlog. split; [reflexivity |].
      now rewrite serveFile_etag, Huse.
    + assert (strict_eq_opt (headers req !! "if-none-match")
                (md5_hex P content) = false) as ->.
      { destruct (headers req !! "if-none-match") as [v|]; [| reflexivity].
        simpl. apply String.eqb_neq. congruence. }
      eexists. rewrite response_calls_app, Hlog. split; [reflexivity |].
      now rewrite get_set_header, serveFile_etag, Huse.
  - intros req now' etag Hs He r'. subst r'.
    pose proof (handle_observables P fs b env now req) as H.
    pose proof (handle_observables P fs b env now'
                  (with_if_none_match etag req)) as H'.
    cbv zeta in *. simpl in H'.
    destruct (snd (resolve P fs env (method req) (url req))) as [t|err].
    + destruct H as (Hs1 & _ & He1), H' as (-> & -> & ->).
      rewrite Hs in Hs1. rewrite He in He1.
      unfold target_etag in *. unfold target_status, target_body.
      destruct t as [extra|location|extname content|dirPath entries];
        simpl in *; try discriminate;
        rewrite Huse in *; unfold not_modified; rewrite Huse; simpl;
        rewrite lookup_insert_eq; simpl;
        injection He1 as ->; now rewrite String.eqb_refl.
    + destruct H as (Hs1 & _). congruence.
Qed.

(** [/a.txt], asked for again with the entity tag of the first answer. *)
Lemma C4_etag_conditional_witness :
  let etag := "5d41402abc4b2a76b9719d911017c592" in
  let r' := handle (node "/") (disk sample) IndexJs www 60000
              (with_if_none_match etag (GET "/a.txt" ∅)) in
  statuses (fst r') = [304] /\ bodies (fst r') = [[]] /\
  etags (fst r') = [Some (HString etag)].
Proof.
  apply (C4_etag_conditional (node "/") (disk sample) IndexJs www 0 eq_refl);
    reflexivity.
Defined.

(** ** C2: the prefix check has no separator boundary *)

(** The containment check is the literal prefix test and nothing more. *)
Lemma contained_iff_prefix (env : Closure) (requestedPath : string) :
  String.eqb (substr0 requestedPath (String.length (rootDir env)))
             (rootDir env) = true <->
  exists rest, requestedPath = rootDir env +:+ rest.
Proof. rewrite substr0_prefix. apply prefix_append. Qed.

(** C2 fails on the code: under root [/srv/www], the request
    [/../wwwevil/secret.txt] normalizes to [/srv/wwwevil/secret.txt], which
    has the root as a literal prefix but is neither the root nor below
    [/srv/www/]; the check lets it through and the sibling's file is
    served. *)
Theorem C2_prefix_sibling_is_served :
  let P := node "/" in
  let c := requestedPath_of P www "/../wwwevil/secret.txt" in
  let r := handle P (disk sample) IndexJs www 0
             (GET "/../wwwevil/secret.txt" ∅) in
  c = "/srv/wwwevil/secret.txt" /\
  String.prefix (rootDir www) c = true /\
  inside_root (path_sep P) (rootDir www) c = false /\
  probes (fst r) = [FsReadFile "/srv/wwwevil/secret.txt"] /\
  statuses (fst r) = [200] /\
  bodies (fst r) = [Buffer_from "secret"].
Proof. vm_compute. now repeat split. Qed.

(** The same request through the source build. *)
Lemma prefix_sibling_is_served_ts :
  let r := handle (node "/") (disk sample) IndexTs www 0
             (GET "/../wwwevil/secret.txt" ∅) in
  statuses (fst r) = [200] /\ bodies (fst r) = [Buffer_from "secret"].
Proof. vm_compute. now repeat split. Qed.

(** ** C5: the MIME table *)

Ltac by_extension ext s :=
  destruct (String.eqb_spec ext s) as [->|?].

(** [out/index.js] follows the table of the specification: a listed
    extension gets its type (with a charset for the text types), [.map]
    and any other extension get no [Content-Type]. *)
Lemma mime_js_follows_table (extname : string) :
  match spec_mime extname with
  | Some t => exists params, mime_js extname = Some (Some (t +:+ params))
  | None =>
      (extname = ".map" /\ mime_js extname = Some None) \/
      (extname <> ".map" /\ mime_js extname = None)
  end.
Proof.
  by_extension extname ".html"; [now exists "; charset=utf-8" |].
  by_extension extname ".htm"; [now exists "; charset=utf-8" |].
  by_extension extname ".js"; [now exists "; charset=utf-8" |].
  by_extension extname ".css"; [now exists "; charset=utf-8" |].
  by_extension extname ".json"; [now exists "; charset=utf-8" |].
  by_extension extname ".png"; [now exists EmptyString |].
  by_extension extname ".svg"; [now exists EmptyString |].
  by_extension extname ".ttf"; [now exists EmptyString |].
  by_extension extname ".txt"; [now exists "; charset=utf-8" |].
  by_extension extname ".wasm"; [now exists EmptyString |].
  by_extension extname ".map"; [now left |].
  assert (spec_mime extname = None /\ mime_js extname = None) as [-> ->].
  { unfold spec_mime, mime_js.
    repeat match goal with
           | H : extname <> ?s |- _ =>
               apply String.eqb_neq in H; rewrite H; clear H
           end.
    now split. }
  now right.
Qed.

(** C5 fails on [src/index.ts]: its switch has no case for [.json],
    [.png] and [.txt] and adds no charset, so [/a.txt] is served 200 with
    the file's bytes, a logged warning and no [Content-Type];
    [out/index.js] answers the same request with
    [text/plain; charset=utf-8]. *)
Theorem C5_ts_serves_txt_without_content_type :
  let ts := handle (node "/") (disk sample) IndexTs www 0 (GET "/a.txt" ∅) in
  let js := handle (node "/") (disk sample) IndexJs www 0 (GET "/a.txt" ∅) in
  statuses (fst ts) = [200] /\
  bodies (fst ts) = [Buffer_from "hello"] /\
  map (get_header "Content-Type") (sent_headers (fst ts)) = [None] /\
  In (ConsoleLog "Unhandled mime-type for ext name: .txt") (fst ts) /\
  mime_ts ".txt" = None /\ mime_ts ".json" = None /\ mime_ts ".png" = None /\
  mime_ts ".html" = Some (Some "text/html") /\
  statuses (fst js) = [200] /\
  bodies (fst js) = [Buffer_from "hello"] /\
  map (get_header "Content-Type") (sent_headers (fst js)) =
    [Some (HString "text/plain; charset=utf-8")].
Proof. vm_compute. repeat split; auto. Qed.

(** ** C8: the response headers *)

Lemma sent_headers_respond (P : Platform) (b : build) (env : Closure)
    (now : Z) (req : IncomingMessage) (t : target) :
  exists h, sent_headers (fst (respond P b env now req t)) = [h] /\
    match target_content P env t with
    | Some content =>
        exists extname,
          h = serveFile_headers P b env now extname content \/
          h = set_header "Content-Length" (HNumber (byteLength content))
                (serveFile_headers P b env now extname content)
    | None => h = [] \/ exists location, h = [("Location", HString location)]
    end.
Proof.
  assert (forall extname content,
    exists h, sent_headers (fst (serveFile P b env now req extname content)) = [h] /\
      (h = serveFile_headers P b env now extname content \/
       h = set_header "Content-Length" (HNumber (byteLength content))
             (serveFile_headers P b env now extname content))) as Hfile.
  { intros extname content. rewrite serveFile_trace. unfold fst.
    rewrite sent_headers_app.
    destruct (only_logs_quiet _ (serveFile_log_only_logs b extname))
      as (_ & _ & _ & -> & _).
    destruct (not_modified P env req content); eexists; simpl; eauto. }
  destruct t as [extra|location|extname content|dirPath entries].
  - exists []. simpl. eauto.
  - eexists. simpl. eauto.
  - destruct (Hfile extname content) as (h & Hh & Hor). simpl. eauto.
  - rewrite respond_serveDir.
    destruct (Hfile ".html" (listing_bytes P env dirPath entries))
      as (h & Hh & Hor). simpl. eauto.
Qed.

(** [out/index.js] sends no header outside the specification's list. *)
Lemma js_headers_in_spec (P : Platform) (fs : FileSystem) (env : Closure)
    (now : Z) (req : IncomingMessage) (h : Headers) (k : string) :
  In h (sent_headers (fst (handle P fs IndexJs env now req))) ->
  In k (header_names h) ->
  In k spec_headers.
Proof.
  rewrite handle_resolve.
  pose proof (resolve_only_probes P fs env (method req) (url req)) as Hpre.
  destruct (resolve P fs env (method req) (url req)) as [pre [t|err]];
    cbn [fst] in *; rewrite sent_headers_app;
    destruct (only_probes_quiet pre Hpre) as (_ & -> & _); rewrite app_nil_l.
  2:{ simpl. intros [<-|[]] []. }
  destruct (sent_headers_respond P IndexJs env now req t) as (h0 & -> & Hh0).
  intros [<-|[]] Hk.
  assert (forall extname content x,
            In x (header_names (serveFile_headers P IndexJs env now extname content)) ->
            In x spec_headers) as Hnames.
  { intros extname content x. unfold serveFile_headers, initial_headers.
    destruct (useETag env), (truthy_num (expires env)),
      (mime IndexJs extname) as [[ty|]|]; intros Hx;
      repeat (apply header_names_set in Hx; destruct Hx as [->|Hx]);
      simpl in *; tauto. }
  destruct (target_content P env t) as [content|].
  - destruct Hh0 as (extname & [->| ->]); [now apply (Hnames extname content) |].
    apply header_names_set in Hk. destruct Hk as [->|Hk];
      [simpl; tauto | now apply (Hnames extname content)].
  - destruct Hh0 as [->|(location & ->)]; simpl in Hk; [tauto |].
    destruct Hk as [<-|[]]. simpl. tauto.
Qed.

(** [src/index.ts] starts every file response from
    [Content-Encoding: utf8]. *)
Lemma ts_sends_content_encoding (P : Platform) (env : Closure) (now : Z)
    (extname : string) (content : Buffer) :
  get_header "Content-Encoding"
    (serveFile_headers P IndexTs env now extname content) =
  Some (HString "utf8").
Proof.
  unfold serveFile_headers.
  destruct (useETag env), (truthy_num (expires env)),
    (mime IndexTs extname) as [[ty|]|]; now rewrite ?get_set_header.
Qed.

(** C8 fails on [src/index.ts]: its file writer also sends
    [Content-Encoding: utf8], a header outside the specification's list;
    [out/index.js] does not. *)
Theorem C8_ts_sends_content_encoding :
  let ts := handle (node "/") (disk sample) IndexTs www 0 (GET "/a.txt" ∅) in
  let js := handle (node "/") (disk sample) IndexJs www 0 (GET "/a.txt" ∅) in
  map header_names (sent_headers (fst ts)) =
    [["Content-Encoding"; "Expires"; "ETag"; "Content-Length"]] /\
  map (get_header "Content-Encoding") (sent_headers (fst ts)) =
    [Some (HString "utf8")] /\
  ~ In "Content-Encoding" spec_headers /\
  map header_names (sent_headers (fst js)) =
    [["Content-Type"; "Expires"; "ETag"; "Content-Length"]].
Proof.
  vm_compute. repeat split; try reflexivity.
  intros H. repeat (destruct H as [H|H]; [discriminate |]). exact H.
Qed.

(** ** C10: the two builds *)

Lemma handle_probes (P : Platform) (fs : FileSystem) (b : build)
    (env : Closure) (now : Z) (req : IncomingMessage) :
  probes (fst (handle P fs b env now req)) =
  fst (resolve P fs env (method req) (url req)).
Proof.
  rewrite handle_resolve.
  pose proof (resolve_only_probes P fs env (method req) (url req)) as Hpre.
  destruct (resolve P fs env (method req) (url req)) as [pre [t|err]];
    unfold fst in *; rewrite probes_app, (only_probes_probes pre Hpre).
  - destruct (respond_trace P b env now req t)
      as (log & s & x & h & body & Hlog & ->).
    unfold fst. rewrite probes_app.
    destruct (only_logs_quiet log Hlog) as (_ & -> & _).
    simpl. now rewrite app_nil_r.
  - simpl. now rewrite app_nil_r.
Qed.

(** What the two builds agree on: the probes, the status, the body and
    the entity tag. *)
Lemma builds_agree (P : Platform) (fs : FileSystem) (env : Closure)
    (now : Z) (req : IncomingMessage) :
  let ts := fst (handle P fs IndexTs env now req) in
  let js := fst (handle P fs IndexJs env now req) in
  probes ts = probes js /\ statuses ts = statuses js /\
  bodies ts = bodies js /\ etags ts = etags js.
Proof.
  cbv zeta. rewrite !handle_probes.
  pose proof (handle_observables P fs IndexTs env now req) as H1.
  pose proof (handle_observables P fs IndexJs env now req) as H2.
  cbv zeta in *.
  destruct (snd (resolve P fs env (method req) (url req)));
    destruct H1 as (-> & -> & ->), H2 as (-> & -> & ->); now repeat split.
Qed.

(** C10 fails on the code: for [/a.txt] the two builds send different
    headers ([src/index.ts] sends [Content-Encoding] and no
    [Content-Type], [out/index.js] the converse), and for [/sub/] they
    disagree on the value of [Content-Type]. *)
Theorem C10_builds_send_different_headers :
  let run b u := handle (node "/") (disk sample) b www 0 (GET u ∅) in
  run IndexTs "/a.txt" <> run IndexJs "/a.txt" /\
  sent_headers (fst (run IndexTs "/a.txt")) =
    [[("Content-Encoding", HString "utf8");
      ("Expires", HString "Thu, 01 Jan 1970 00:00:05 GMT");
      ("ETag", HString "5d41402abc4b2a76b9719d911017c592");
      ("Content-Length", HNumber 5)]] /\
  sent_headers (fst (run IndexJs "/a.txt")) =
    [[("Content-Type", HString "text/plain; charset=utf-8");
      ("Expires", HString "Thu, 01 Jan 1970 00:00:05 GMT");
      ("ETag", HString "5d41402abc4b2a76b9719d911017c592");
      ("Content-Length", HNumber 5)]] /\
  map (get_header "Content-Type") (sent_headers (fst (run IndexTs "/sub/"))) =
    [Some (HString "text/html")] /\
  map (get_header "Content-Type") (sent_headers (fst (run IndexJs "/sub/"))) =
    [Some (HString "text/html; charset=utf-8")].
Proof. vm_compute. repeat split; try reflexivity. discriminate. Qed.

(** * Further properties of the handler *)

(** ** The decision table *)

Lemma strict_eq_opt_true (o : option string) (s : string) :
  strict_eq_opt o s = true <-> o = Some s.
Proof.
  destruct o as [t|]; simpl.
  - rewrite String.eqb_eq. split; congruence.
  - split; discriminate.
Qed.

Section TableLemmas.

Context (P : Platform) (fs : FileSystem) (env : Closure).

Lemma resolve_directory_decision (p c : string) :
  exists t tg,
    resolve_directory P fs env p c = (t, Return tg) /\
    directory_decision P fs env p c t tg.
Proof.
  unfold resolve_directory, fsSafeRead, fsSafeReadDir. fold (indexPath_of P c).
  destruct (String.eqb_spec p (expectedRequestPath_of P env c)) as [Heq|Hne];
    simpl.
  - destruct (fs_readFile fs (indexPath_of P c)) as [code|content] eqn:Hr; simpl.
    + destruct (fs_readdir fs c) as [code'|entries] eqn:Hd; simpl;
        do 2 eexists; (split; [reflexivity |]); econstructor; eauto.
    + do 2 eexists. split; [reflexivity |]. now constructor.
  - do 2 eexists. split; [reflexivity |]. now constructor.
Qed.

Lemma resolve_path_decision (p : string) :
  exists t tg,
    resolve_path P fs env p = (t, Return tg) /\ path_decision P fs env p t tg.
Proof.
  unfold resolve_path, fsSafeRead, fsSafeStat. cbv zeta.
  rewrite substr0_prefix.
  destruct (String.prefix (rootDir env) (requestedPath_of P env p)) eqn:Hin;
    simpl.
  2:{ do 2 eexists. split; [reflexivity |]. now constructor. }
  destruct (fs_readFile fs (requestedPath_of P env p)) as [code|content] eqn:Hr;
    simpl.
  2:{ do 2 eexists. split; [reflexivity |]. now constructor. }
  destruct (fs_stat fs (requestedPath_of P env p)) as [code'|stats] eqn:Hs;
    simpl.
  { do 2 eexists. split; [reflexivity |]. econstructor; eauto. }
  destruct (stats_isDirectory stats) eqn:Hd; simpl.
  2:{ do 2 eexists. split; [reflexivity |]. eapply IsOther; eauto. }
  destruct (resolve_directory_decision p (requestedPath_of P env p))
    as (t & tg & -> & Hdec).
  do 2 eexists. split; [reflexivity |]. eapply IsDirectory; eauto.
Qed.

(** [resolve] goes one of the ways of the table. *)
Lemma resolve_decision (m u : option string) :
  decision P fs env m u (fst (resolve P fs env m u))
                        (snd (resolve P fs env m u)).
Proof.
  unfold resolve.
  destruct (strict_eq_opt m "GET") eqn:Hm; simpl.
  2:{ constructor. left. intros H. apply strict_eq_opt_true in H. congruence. }
  apply strict_eq_opt_true in Hm.
  destruct u as [s|]; simpl; [| constructor; now right].
  destruct (truthy s) eqn:Hs; simpl; [| constructor; now right].
  destruct (url_parse P s) as [parsed|err] eqn:Hparse; simpl.
  2:{ now apply (ParseThrows P fs env _ _ s err). }
  destruct (pathname parsed) as [p|] eqn:Hp.
  2:{ apply (NoPathname P fs env _ _ s parsed); auto. now rewrite Hp. }
  destruct (truthy p) eqn:Htp; simpl.
  2:{ apply (NoPathname P fs env _ _ s parsed); auto. now rewrite Hp. }
  destruct (resolve_path_decision p) as (t & tg & -> & Hdec). simpl.
  now apply (HasPathname P fs env _ _ s parsed p).
Qed.

End TableLemmas.

(** ** The answer for each outcome of the decision *)

Section Answer.

Context (P : Platform) (fs : FileSystem) (b : build) (env : Closure) (now : Z).

Lemma respond_answer (req : IncomingMessage) (t : target) :
  response_calls (fst (respond P b env now req t)) =
  answer P b env now req (Return t).
Proof.
  assert (forall extname content,
    response_calls (fst (serveFile P b env now req extname content)) =
    if not_modified P env req content
    then [WriteHead 304 "Not modified"
            (serveFile_headers P b env now extname content); End None]
    else [WriteHead 200 "OK"
            (set_header "Content-Length" (HNumber (byteLength content))
               (serveFile_headers P b env now extname content));
          End (Some (ChunkBuffer content))]) as Hfile.
  { intros extname content. rewrite serveFile_trace. cbn [fst].
    rewrite response_calls_app.
    destruct (only_logs_quiet _ (serveFile_log_only_logs b extname)) as (-> & _).
    now destruct (not_modified P env req content). }
  destruct t as [extra|location|extname content|dirPath entries].
  - reflexivity.
  - reflexivity.
  - apply Hfile.
  - rewrite respond_serveDir. apply Hfile.
Qed.

(** The calls [handle] makes on the response object. *)
Lemma handle_answer (req : IncomingMessage) :
  response_calls (fst (handle P fs b env now req)) =
  answer P b env now req (snd (resolve P fs env (method req) (url req))).
Proof.
  rewrite handle_resolve.
  pose proof (resolve_only_probes P fs env (method req) (url req)) as Hpre.
  destruct (resolve P fs env (method req) (url req)) as [pre [t|err]];
    cbn [fst snd] in *; rewrite response_calls_app,
      (only_probes_response_calls pre Hpre), app_nil_l.
  - apply respond_answer.
  - reflexivity.
Qed.

Lemma resolve_throws (m u : option string) (s err : string) :
  m = Some "GET" -> u = Some s -> truthy s = true ->
  url_parse P s = Throw err ->
  resolve P fs env m u = ([], Throw err).
Proof.
  intros -> -> Hs Hparse. unfold resolve. simpl. rewrite Hs. simpl.
  now rewrite Hparse.
Qed.

End Answer.

(** ** What every answer has in common *)

Lemma statuses_response_calls (t : list event) :
  statuses (response_calls t) = statuses t.
Proof.
  induction t as [|e t IH]; [reflexivity |].
  unfold response_calls in *. destruct e;
    rewrite ?filter_cons_True by reflexivity;
    rewrite ?filter_cons_False by (simpl; discriminate);
    simpl; now rewrite ?IH.
Qed.

Lemma sent_headers_response_calls (t : list event) :
  sent_headers (response_calls t) = sent_headers t.
Proof.
  induction t as [|e t IH]; [reflexivity |].
  unfold response_calls in *. destruct e;
    rewrite ?filter_cons_True by reflexivity;
    rewrite ?filter_cons_False by (simpl; discriminate);
    simpl; now rewrite ?IH.
Qed.

Lemma replace_backslashes_none (s : string) :
  no_backslash (replace_backslashes s) = true.
Proof.
  induction s as [|c s IH]; [reflexivity |]. simpl.
  destruct (Ascii.eqb c "\"%char) eqn:E; simpl; [exact IH |].
  now rewrite E.
Qed.

Lemma no_backslash_app (s t : string) :
  no_backslash (s +:+ t) = no_backslash s && no_backslash t.
Proof.
  induction s as [|c s IH]; [reflexivity |].
  rewrite append_cons. simpl. rewrite IH. now rewrite andb_assoc.
Qed.

Lemma endsWithSlash_app (s : string) : Posix.endsWithSlash (s +:+ "/") = true.
Proof.
  induction s as [|c s IH]; [reflexivity |].
  rewrite append_cons. simpl.
  destruct (s +:+ "/") eqn:E; [| exact IH].
  destruct s; discriminate.
Qed.

Section Common.

Context (P : Platform) (fs : FileSystem) (b : build) (env : Closure) (now : Z).

(** The expected path of a directory starts and ends with a slash and
    holds no backslash. *)
Lemma expectedRequestPath_shape (c : string) :
  Posix.isAbsolute (expectedRequestPath_of P env c) = true /\
  Posix.endsWithSlash (expectedRequestPath_of P env c) = true /\
  no_backslash (expectedRequestPath_of P env c) = true.
Proof.
  unfold expectedRequestPath_of. cbv zeta.
  set (e := replace_backslashes (path_relative P (rootDir env) c) +:+ "/").
  assert (no_backslash e = true) as Hnb.
  { unfold e. now rewrite no_backslash_app, replace_backslashes_none. }
  assert (Posix.endsWithSlash e = true) as Hend by apply endsWithSlash_app.
  destruct (String.eqb_spec (charAt0 e) "/") as [Hs|Hs]; simpl.
  - repeat split; try assumption.
    destruct e as [|x r]; [discriminate |].
    rewrite charAt0_cons in Hs. injection Hs as ->. reflexivity.
  - repeat split; try assumption.
    change ("/" +:+ e) with (String "/" e). simpl.
    destruct e; [discriminate | exact Hend].
Qed.

(** Every request is answered with one of five status codes, and only a
    [GET] with a non-empty URL is answered with anything but 404. *)
Theorem status_is_one_of_five (req : IncomingMessage) :
  exists s,
    statuses (fst (handle P fs b env now req)) = [s] /\
    In s status_codes /\
    (s <> 404 -> method req = Some "GET" /\ truthy_opt (url req) = true).
Proof.
  pose proof (handle_observables P fs b env now req) as Hobs.
  pose proof (resolve_decision P fs env (method req) (url req)) as Hdec.
  cbv zeta in Hobs.
  destruct (resolve P fs env (method req) (url req)) as [t [tg|err]];
    cbn [fst snd] in *; destruct Hobs as (-> & _); eexists;
    (split; [reflexivity |]); split.
  - unfold status_codes.
    destruct tg; simpl; try tauto; destruct (not_modified P env req _);
      simpl; tauto.
  - intros Hs.
    inversion Hdec as [Hbad|
                       |s parsed Hm Hu Htu
                       |s parsed p t' tg' Hm Hu Htu]; subst.
    + now contradiction Hs.
    + now contradiction Hs.
    + rewrite Hu. now split.
  - unfold status_codes. simpl. tauto.
  - intros _. inversion Hdec as [|s err' Hm Hu Htu| |]; subst.
    rewrite Hu. now split.
Qed.


End Common.

(** ** Headers and bodies, answer by answer *)

Section Answers.

Context (P : Platform) (fs : FileSystem) (b : build) (env : Closure) (now : Z).

(** [Content-Length] goes with the 200 answers and only with them, and it
    is the length of the body sent. *)
Theorem content_length_goes_with_200 (req : IncomingMessage) :
  exists s x h body,
    response_calls (fst (handle P fs b env now req)) =
      [WriteHead s x h; End body] /\
    match get_header "Content-Length" h with
    | Some n =>
        s = 200 /\
        exists content,
          body = Some (ChunkBuffer content) /\ n = HNumber (byteLength content)
    | None => s <> 200
    end.
Proof.
  rewrite handle_answer.
  destruct (snd (resolve P fs env (method req) (url req))) as [tg|err].
  2:{ do 4 eexists. split; [reflexivity |]. simpl. discriminate. }
  destruct tg as [extra|location|extname content|dirPath entries]; simpl.
  - do 4 eexists. split; [reflexivity |]. simpl. discriminate.
  - do 4 eexists. split; [reflexivity |]. simpl. discriminate.
  - destruct (not_modified P env req content);
      do 4 eexists; (split; [reflexivity |]).
    + rewrite serveFile_no_content_length. discriminate.
    + rewrite get_set_header. simpl. eauto.
  - destruct (not_modified P env req _);
      do 4 eexists; (split; [reflexivity |]).
    + rewrite serveFile_no_content_length. discriminate.
    + rewrite get_set_header. simpl. eauto.
Qed.

(** [Expires] is sent with the 200 and 304 answers when [expires] is not
    zero, a negative value included, and it is the time of the answer plus
    [expires]; it is never sent otherwise. *)
Theorem expires_follows_the_option (req : IncomingMessage) :
  exists s x h body,
    response_calls (fst (handle P fs b env now req)) =
      [WriteHead s x h; End body] /\
    get_header "Expires" h =
      if ((s =? 200) || (s =? 304)) && negb (expires env =? 0)
      then Some (HString (toUTCString P (now + expires env)))
      else None.
Proof.
  rewrite handle_answer.
  destruct (snd (resolve P fs env (method req) (url req))) as [tg|err].
  2:{ do 4 eexists. split; reflexivity. }
  destruct tg as [extra|location|extname content|dirPath entries]; simpl;
    try (do 4 eexists; split; reflexivity);
    destruct (not_modified P env req _);
    do 4 eexists; (split; [reflexivity |]);
    rewrite ?get_set_header; simpl; rewrite serveFile_expires;
    reflexivity.
Qed.

(** The [ETag] of a 200 answer is the hash of the very bytes sent, for
    files and for listings alike; a 304 answer carries the hash the
    request asked about. *)
Theorem etag_is_the_hash_of_the_body (req : IncomingMessage) :
  useETag env = true ->
  exists s x h body,
    response_calls (fst (handle P fs b env now req)) =
      [WriteHead s x h; End body] /\
    match s with
    | 200 =>
        exists content,
          body = Some (ChunkBuffer content) /\
          get_header "ETag" h = Some (HString (md5_hex P content))
    | 304 =>
        body = None /\
        exists etag,
          headers req !! "if-none-match" = Some etag /\
          get_header "ETag" h = Some (HString etag)
    | _ => get_header "ETag" h = None
    end.
Proof.
  intros Huse. rewrite handle_answer.
  assert (forall content,
            not_modified P env req content = true ->
            headers req !! "if-none-match" = Some (md5_hex P content)) as Hnm.
  { intros content. unfold not_modified. rewrite Huse. simpl.
    destruct (headers req !! "if-none-match") as [v|]; [| discriminate].
    simpl. intros Hv. apply String.eqb_eq in Hv. now subst. }
  destruct (snd (resolve P fs env (method req) (url req))) as [tg|err].
  2:{ do 4 eexists. split; reflexivity. }
  destruct tg as [extra|location|extname content|dirPath entries]; simpl;
    try (do 4 eexists; split; reflexivity).
  - destruct (not_modified P env req content) eqn:E;
      do 4 eexists; (split; [reflexivity |]); simpl.
    + split; [reflexivity |]. eexists. split; [apply Hnm; exact E |].
      now rewrite serveFile_etag, Huse.
    + eexists. split; [reflexivity |].
      now rewrite get_set_header, serveFile_etag, Huse.
  - destruct (not_modified P env req _) eqn:E;
      do 4 eexists; (split; [reflexivity |]); simpl.
    + split; [reflexivity |]. eexists. split; [apply Hnm; exact E |].
      now rewrite serveFile_etag, Huse.
    + eexists. split; [reflexivity |].
      now rewrite get_set_header, serveFile_etag, Huse.
Qed.

(** With the [etag] option off no answer carries an [ETag] and none is
    304, whatever [If-None-Match] the request brings. *)
Theorem no_etag_no_304 (req : IncomingMessage) :
  useETag env = false ->
  exists s x h body,
    response_calls (fst (handle P fs b env now req)) =
      [WriteHead s x h; End body] /\
    s <> 304 /\ get_header "ETag" h = None.
Proof.
  intros Huse. rewrite handle_answer.
  destruct (snd (resolve P fs env (method req) (url req))) as [tg|err].
  2:{ do 4 eexists. split; [reflexivity |]. now split. }
  destruct tg as [extra|location|extname content|dirPath entries]; simpl;
    try (do 4 eexists; split; [reflexivity |]; now split);
    unfold not_modified; rewrite Huse; simpl;
    do 4 eexists; (split; [reflexivity |]); (split; [discriminate |]);
    now rewrite get_set_header, serveFile_etag, Huse.
Qed.

(** A 302 answer sends to a path that starts and ends with a slash and
    holds no backslash, and says so in its body. *)
Theorem redirect_goes_to_a_directory_url (req : IncomingMessage) :
  statuses (fst (handle P fs b env now req)) = [302] ->
  exists location,
    response_calls (fst (handle P fs b env now req)) =
      redirect_trace location /\
    Posix.isAbsolute location = true /\
    Posix.endsWithSlash location = true /\
    no_backslash location = true.
Proof.
  rewrite <- statuses_response_calls, handle_answer.
  pose proof (resolve_decision P fs env (method req) (url req)) as Hdec.
  destruct (resolve P fs env (method req) (url req)) as [t [tg|err]];
    cbn [fst snd] in *; [| discriminate].
  destruct tg as [extra|location|extname content|dirPath entries]; simpl;
    try discriminate;
    try (destruct (not_modified P env req _); discriminate).
  intros _. exists location. split; [reflexivity |].
  inversion Hdec as [| | |s parsed p t' tg Hm Hu Hs Hparse Hp Htp Hpath];
    subst.
  inversion Hpath as [| | | |code stats t'' tg' Hin Hr Hst Hd Hdir]; subst.
  inversion Hdir; subst. apply expectedRequestPath_shape.
Qed.

End Answers.

(** ** The ways through [doHandle], one by one *)

Section Ways.

Context (P : Platform) (fs : FileSystem) (b : build) (env : Closure) (now : Z).

(** A request that is not a [GET], or has no URL or an empty one, is
    answered 404 with reason 1 before anything else happens: the URL is
    not parsed (so a URL that [url.parse] would reject does not give a
    500) and the file system is not touched. *)
Theorem other_methods_are_not_found (req : IncomingMessage) :
  method req <> Some "GET" \/ truthy_opt (url req) = false ->
  handle P fs b env now req = (not_found_trace "1", Return tt).
Proof.
  intros H. rewrite handle_resolve. unfold resolve.
  assert (negb (strict_eq_opt (method req) "GET") ||
          negb (truthy_opt (url req)) = true) as ->; [| reflexivity].
  destruct H as [H| ->]; [| apply orb_true_r].
  destruct (strict_eq_opt (method req) "GET") eqn:E; [| reflexivity].
  apply strict_eq_opt_true in E. contradiction.
Qed.

(** When [url.parse] throws, the error is logged and the answer is 500
    with the fixed body; the file system is not touched. *)
Theorem rejected_url_is_500 (req : IncomingMessage) (u err : string) :
  method req = Some "GET" -> url req = Some u -> truthy u = true ->
  url_parse P u = Throw err ->
  handle P fs b env now req =
    ([ConsoleError err;
      WriteHead 500 "Internal Server Error" [];
      End (Some (ChunkString "Internal Server Error"))],
     Return tt).
Proof.
  intros Hm Hu Htu Hparse. rewrite handle_resolve.
  now rewrite (resolve_throws P fs env _ _ u err Hm Hu Htu Hparse).
Qed.

(** A path that can be read is served as a file after that single probe:
    [stat] is not called, a trailing-slash redirect is not considered, and
    the extension is the one of the normalized path. *)
Theorem readable_path_is_served (req : IncomingMessage) (u : string)
    (parsed : Url) (p : string) (content : Buffer) :
  method req = Some "GET" -> url req = Some u -> truthy u = true ->
  url_parse P u = Return parsed ->
  pathname parsed = Some p -> truthy p = true ->
  String.prefix (rootDir env) (requestedPath_of P env p) = true ->
  fs_readFile fs (requestedPath_of P env p) = Ok content ->
  handle P fs b env now req =
    ([FsReadFile (requestedPath_of P env p)] ++
     fst (serveFile P b env now req
            (path_extname P (requestedPath_of P env p)) content),
     Return tt).
Proof.
  intros Hm Hu Htu Hparse Hp Htp Hin Hread. rewrite handle_resolve.
  rewrite (resolve_get P fs env _ _ u parsed p Hm Hu Htu Hparse Hp Htp).
  now rewrite (resolve_path_file P fs env p content Hin Hread).
Qed.

(** A path that can neither be read nor turns out to be a directory is
    answered 404 with reason 4, after the read and the [stat]. *)
Theorem missing_path_is_not_found (req : IncomingMessage) (u : string)
    (parsed : Url) (p code : string) :
  method req = Some "GET" -> url req = Some u -> truthy u = true ->
  url_parse P u = Return parsed ->
  pathname parsed = Some p -> truthy p = true ->
  String.prefix (rootDir env) (requestedPath_of P env p) = true ->
  fs_readFile fs (requestedPath_of P env p) = Err code ->
  match fs_stat fs (requestedPath_of P env p) with
  | Err _ => True
  | Ok stats => stats_isDirectory stats = false
  end ->
  handle P fs b env now req =
    ([FsReadFile (requestedPath_of P env p);
      FsStat (requestedPath_of P env p)] ++ not_found_trace "4",
     Return tt).
Proof.
  intros Hm Hu Htu Hparse Hp Htp Hin Hread Hstat. rewrite handle_resolve.
  rewrite (resolve_get P fs env _ _ u parsed p Hm Hu Htu Hparse Hp Htp).
  unfold resolve_path, fsSafeRead, fsSafeStat. cbv zeta.
  rewrite substr0_prefix, Hin, Hread. simpl.
  destruct (fs_stat fs (requestedPath_of P env p)) as [code'|stats]; simpl;
    [reflexivity |].
  now rewrite Hstat.
Qed.

Lemma resolve_directory_canonical (p c code : string) :
  p = expectedRequestPath_of P env c ->
  resolve_directory P fs env p c =
  bind (fsSafeRead fs (indexPath_of P c)) (fun indexContent =>
    match indexContent with
    | Some indexContent =>
        ret (ServeFile (path_extname P (indexPath_of P c)) indexContent)
    | None =>
        bind (fsSafeReadDir fs c) (fun dirEntries =>
          match dirEntries with
          | Some dirEntries => ret (ServeDir c dirEntries)
          | None => ret (NotFound "5")
          end)
    end).
Proof.
  intros ->. unfold resolve_directory. now rewrite String.eqb_refl.
Qed.

(** A directory asked for under its canonical URL is answered with its
    [index.html] when that file can be read; the directory is not listed. *)
Theorem directory_serves_its_index (req : IncomingMessage) (u : string)
    (parsed : Url) (p code : string) (stats : Stats) (content : Buffer) :
  method req = Some "GET" -> url req = Some u -> truthy u = true ->
  url_parse P u = Return parsed ->
  pathname parsed = Some p -> truthy p = true ->
  let c := requestedPath_of P env p in
  String.prefix (rootDir env) c = true ->
  fs_readFile fs c = Err code ->
  fs_stat fs c = Ok stats -> stats_isDirectory stats = true ->
  p = expectedRequestPath_of P env c ->
  fs_readFile fs (indexPath_of P c) = Ok content ->
  handle P fs b env now req =
    ([FsReadFile c; FsStat c; FsReadFile (indexPath_of P c)] ++
     fst (serveFile P b env now req
            (path_extname P (indexPath_of P c)) content),
     Return tt).
Proof.
  intros Hm Hu Htu Hparse Hp Htp c Hin Hread Hstat Hdir Hcanon Hindex.
  rewrite handle_resolve.
  rewrite (resolve_get P fs env _ _ u parsed p Hm Hu Htu Hparse Hp Htp).
  rewrite (resolve_path_directory P fs env p code stats Hin Hread Hstat Hdir).
  fold c. rewrite (resolve_directory_canonical p c code Hcanon).
  unfold fsSafeRead. now rewrite Hindex.
Qed.

(** A directory asked for under its canonical URL, without a readable
    [index.html], is listed: the listing page goes through the file
    writer as [.html], so it gets the entity tag, the [Expires] and the
    304 of a file. *)
Theorem directory_is_listed (req : IncomingMessage) (u : string)
    (parsed : Url) (p code code' : string) (stats : Stats)
    (entries : list Dirent) :
  method req = Some "GET" -> url req = Some u -> truthy u = true ->
  url_parse P u = Return parsed ->
  pathname parsed = Some p -> truthy p = true ->
  let c := requestedPath_of P env p in
  String.prefix (rootDir env) c = true ->
  fs_readFile fs c = Err code ->
  fs_stat fs c = Ok stats -> stats_isDirectory stats = true ->
  p = expectedRequestPath_of P env c ->
  fs_readFile fs (indexPath_of P c) = Err code' ->
  fs_readdir fs c = Ok entries ->
  handle P fs b env now req =
    ([FsReadFile c; FsStat c; FsReadFile (indexPath_of P c); FsReadDir c] ++
     fst (serveFile P b env now req ".html" (listing_bytes P env c entries)),
     Return tt).
Proof.
  intros Hm Hu Htu Hparse Hp Htp c Hin Hread Hstat Hdir Hcanon Hindex Hls.
  rewrite handle_resolve.
  rewrite (resolve_get P fs env _ _ u parsed p Hm Hu Htu Hparse Hp Htp).
  rewrite (resolve_path_directory P fs env p code stats Hin Hread Hstat Hdir).
  fold c. rewrite (resolve_directory_canonical p c code Hcanon).
  unfold fsSafeRead, fsSafeReadDir. rewrite Hindex. simpl. now rewrite Hls.
Qed.

(** A directory that cannot be listed is answered 404 with reason 5, not
    500. *)
Theorem unlistable_directory_is_not_found (req : IncomingMessage)
    (u : string) (parsed : Url) (p code code' code'' : string)
    (stats : Stats) :
  method req = Some "GET" -> url req = Some u -> truthy u = true ->
  url_parse P u = Return parsed ->
  pathname parsed = Some p -> truthy p = true ->
  let c := requestedPath_of P env p in
  String.prefix (rootDir env) c = true ->
  fs_readFile fs c = Err code ->
  fs_stat fs c = Ok stats -> stats_isDirectory stats = true ->
  p = expectedRequestPath_of P env c ->
  fs_readFile fs (indexPath_of P c) = Err code' ->
  fs_readdir fs c = Err code'' ->
  handle P fs b env now req =
    ([FsReadFile c; FsStat c; FsReadFile (indexPath_of P c); FsReadDir c] ++
     not_found_trace "5",
     Return tt).
Proof.
  intros Hm Hu Htu Hparse Hp Htp c Hin Hread Hstat Hdir Hcanon Hindex Hls.
  rewrite handle_resolve.
  rewrite (resolve_get P fs env _ _ u parsed p Hm Hu Htu Hparse Hp Htp).
  rewrite (resolve_path_directory P fs env p code stats Hin Hread Hstat Hdir).
  fold c. rewrite (resolve_directory_canonical p c code Hcanon).
  unfold fsSafeRead, fsSafeReadDir. rewrite Hindex. simpl. now rewrite Hls.
Qed.

Lemma expected_same_relative (c c' : string) :
  path_relative P (rootDir env) c = path_relative P (rootDir env) c' ->
  expectedRequestPath_of P env c = expectedRequestPath_of P env c'.
Proof. unfold expectedRequestPath_of. now intros ->. Qed.

(** The location of a redirect is not redirected again, as long as it
    names the same directory, that is as long as [path.relative] gives the
    same result for the path it resolves to. *)
Theorem redirect_is_not_repeated (req : IncomingMessage) (u : string)
    (parsed : Url) (c : string) :
  method req = Some "GET" -> url req = Some u -> truthy u = true ->
  url_parse P u = Return parsed ->
  pathname parsed = Some (expectedRequestPath_of P env c) ->
  path_relative P (rootDir env)
    (requestedPath_of P env (expectedRequestPath_of P env c)) =
  path_relative P (rootDir env) c ->
  statuses (fst (handle P fs b env now req)) <> [302].
Proof.
  intros Hm Hu Htu Hparse Hp Hrel.
  pose proof (handle_observables P fs b env now req) as Hobs.
  pose proof (resolve_decision P fs env (method req) (url req)) as Hdec.
  cbv zeta in Hobs.
  destruct (resolve P fs env (method req) (url req)) as [t [tg|err]];
    cbn [fst snd] in *; destruct Hobs as (-> & _); [| discriminate].
  destruct tg as [extra|location|extname content|dirPath entries]; simpl;
    try discriminate;
    try (destruct (not_modified P env req _); discriminate).
  intros _.
  inversion Hdec as [| | |s parsed' p t' tg Hm' Hu' Hs' Hparse' Hp' Htp' Hpath];
    subst.
  assert (s = u) as -> by congruence.
  assert (parsed' = parsed) as -> by congruence.
  assert (p = expectedRequestPath_of P env c) as -> by congruence.
  inversion Hpath as [| | | |code stats t'' tg' Hin Hr Hst Hd Hdir]; subst.
  inversion Hdir as [c' Hne| | |]; subst. apply Hne.
  apply expected_same_relative. now rewrite Hrel.
Qed.

(** Why a probe failed makes no difference: with every error code
    replaced by another the handler does exactly the same. *)
Theorem error_codes_do_not_matter (req : IncomingMessage) :
  handle P (recoded fs) b env now req = handle P fs b env now req.
Proof.
  unfold handle. f_equal.
  unfold doHandle, fsSafeRead, fsSafeStat, fsSafeReadDir. simpl.
  destruct (negb (strict_eq_opt (method req) "GET") || negb (truthy_opt (url req)));
    [reflexivity |].
  destruct (url_parse P (default EmptyString (url req))) as [parsed|err];
    [| reflexivity].
  simpl. destruct (pathname parsed) as [p|]; [| reflexivity].
  destruct (negb (truthy p)); [reflexivity |].
  destruct (negb (String.eqb _ _)); [reflexivity |].
  destruct (fs_readFile fs (path_normalize P (path_join P (rootDir env) p)))
    as [code|content]; simpl; [| reflexivity].
  destruct (fs_stat fs _) as [code'|stats]; simpl; [reflexivity |].
  destruct (negb (stats_isDirectory stats)); [reflexivity |].
  destruct (negb (String.eqb p _)); [reflexivity |].
  destruct (fs_readFile fs _); simpl; [| reflexivity].
  destruct (fs_readdir fs _); reflexivity.
Qed.

End Ways.

(** ** The reason code of a 404 *)

Section Reasons.

Context (P : Platform) (fs : FileSystem) (b : build) (env : Closure) (now : Z).

(** [resolve] ends in [NotFound k] exactly when check [k] turns the
    request down. *)
Lemma resolve_not_found_iff (req : IncomingMessage) (k : string) :
  snd (resolve P fs env (method req) (url req)) = Return (NotFound k) <->
  failed_check P fs env req k.
Proof.
  split.
  - pose proof (resolve_decision P fs env (method req) (url req)) as Hdec.
    destruct (resolve P fs env (method req) (url req)) as [t o].
    cbn [fst snd] in *. intros ->.
    inversion Hdec as [Hbad| |s parsed Hm Hu Htu Hparse Hnone
                      |s parsed p t' tg Hm Hu Htu Hparse Hp Htp Hpath]; subst.
    + now constructor.
    + now apply (Check2 P fs env req s parsed).
    + inversion Hpath as [Hout| |code code' Hin Hr Hst
                         |code stats Hin Hr Hst Hd
                         |code stats t'' tg' Hin Hr Hst Hd Hdir]; subst.
      * now apply (Check3 P fs env req s parsed p).
      * apply (Check4 P fs env req s parsed p code); auto. now rewrite Hst.
      * apply (Check4 P fs env req s parsed p code); auto. now rewrite Hst.
      * inversion Hdir; subst.
        eapply (Check5 P fs env req s parsed p); eauto.
  - intros Hcheck.
    destruct Hcheck as [Hbad
                       |u parsed Hm Hu Htu Hparse Hnone
                       |u parsed p Hm Hu Htu Hparse Hp Htp Hout
                       |u parsed p code Hm Hu Htu Hparse Hp Htp Hin Hr Hst
                       |u parsed p code stats code' code''
                          Hm Hu Htu Hparse Hp Htp Hin Hr Hst Hd Hcanon Hidx Hls].
    + unfold resolve.
      assert (negb (strict_eq_opt (method req) "GET") ||
              negb (truthy_opt (url req)) = true) as ->; [| reflexivity].
      destruct Hbad as [H| ->]; [| apply orb_true_r].
      destruct (strict_eq_opt (method req) "GET") eqn:E; [| reflexivity].
      apply strict_eq_opt_true in E. contradiction.
    + now rewrite (resolve_no_pathname P fs env _ _ u parsed Hm Hu Htu Hparse).
    + rewrite (resolve_get P fs env _ _ u parsed p Hm Hu Htu Hparse Hp Htp).
      now rewrite resolve_path_escape.
    + rewrite (resolve_get P fs env _ _ u parsed p Hm Hu Htu Hparse Hp Htp).
      unfold resolve_path, fsSafeRead, fsSafeStat. cbv zeta.
      rewrite substr0_prefix, Hin, Hr. simpl.
      destruct (fs_stat fs (requestedPath_of P env p)) as [c'|stats]; simpl;
        [reflexivity |].
      now rewrite Hst.
    + rewrite (resolve_get P fs env _ _ u parsed p Hm Hu Htu Hparse Hp Htp).
      rewrite (resolve_path_directory P fs env p code stats Hin Hr Hst Hd).
      rewrite (resolve_directory_canonical P fs env p _ code Hcanon).
      unfold fsSafeRead, fsSafeReadDir. rewrite Hidx. simpl. now rewrite Hls.
Qed.

(** A 404 answer has no header and the body [Not found - k], where [k],
    from 1 to 5, is the number of the check that turned the request down:
    1 for the method and the URL, 2 for the pathname, 3 for the prefix, 4
    for the read and the [stat], 5 for the listing; and no other check
    did. *)
Theorem not_found_names_its_check (req : IncomingMessage) :
  statuses (fst (handle P fs b env now req)) = [404] ->
  exists k,
    In k reason_codes /\
    response_calls (fst (handle P fs b env now req)) = not_found_trace k /\
    failed_check P fs env req k /\
    (forall k', failed_check P fs env req k' -> k' = k).
Proof.
  rewrite <- statuses_response_calls, handle_answer.
  pose proof (resolve_not_found_iff req) as Hiff.
  destruct (snd (resolve P fs env (method req) (url req))) as [tg|err];
    [| discriminate].
  destruct tg as [extra|location|extname content|dirPath entries]; simpl;
    try discriminate;
    try (destruct (not_modified P env req _); discriminate).
  intros _. exists extra.
  assert (failed_check P fs env req extra) as Hcheck by now apply Hiff.
  assert (In extra reason_codes) as Hin
    by (destruct Hcheck; unfold reason_codes; simpl; tauto).
  repeat split; try assumption.
  - destruct Hcheck; reflexivity.
  - intros k' Hk'. apply Hiff in Hk'. congruence.
Qed.

End Reasons.

(** The missing file [/nope.txt] of the sample site: check 4 and no other. *)
Lemma not_found_names_its_check_witness :
  exists k,
    In k reason_codes /\
    response_calls
      (fst (handle (node "/") (disk sample) IndexJs www 0 (GET "/nope.txt" ∅))) =
    not_found_trace k /\
    failed_check (node "/") (disk sample) www (GET "/nope.txt" ∅) k /\
    (forall k',
       failed_check (node "/") (disk sample) www (GET "/nope.txt" ∅) k' ->
       k' = k).
Proof.
  apply (not_found_names_its_check (node "/") (disk sample) IndexJs www 0).
  reflexivity.
Defined.

(** ** The order of a listing *)

Section Sorting.

Context {A : Type} (cmp : A -> A -> Z).

Lemma sort_insert_perm (x : A) (l : list A) : sort_insert cmp x l ≡ₚ x :: l.
Proof.
  induction l as [|y r IH]; simpl; [reflexivity |].
  destruct (cmp x y <=? 0); [reflexivity |].
  rewrite IH. apply Permutation_swap.
Qed.

Lemma array_sort_perm (l : list A) : array_sort cmp l ≡ₚ l.
Proof.
  induction l as [|x r IH]; [reflexivity |].
  unfold array_sort in *. simpl. now rewrite sort_insert_perm, IH.
Qed.

Lemma array_sort_In (x : A) (l : list A) : In x (array_sort cmp l) <-> In x l.
Proof.
  rewrite <- !list_elem_of_In. now rewrite array_sort_perm.
Qed.

Lemma sort_insert_forallb (f : A -> bool) (x : A) (l : list A) :
  forallb f (sort_insert cmp x l) = f x && forallb f l.
Proof.
  induction l as [|y r IH]; simpl; [now rewrite andb_true_r |].
  destruct (cmp x y <=? 0); simpl; [reflexivity |].
  rewrite IH. destruct (f x), (f y); reflexivity.
Qed.

(** Inserting into a sorted list keeps it sorted, when the comparator is
    total and transitive on the elements at hand. *)
Lemma sort_insert_sorted (x : A) (l : list A) :
  (forall y, In y l -> cmp x y <= 0 \/ cmp y x <= 0) ->
  (forall y z, In y l -> In z l ->
     (cmp x y <= 0 -> cmp y z <= 0 -> cmp x z <= 0)) ->
  StronglySorted (fun a b => cmp a b <= 0) l ->
  StronglySorted (fun a b => cmp a b <= 0) (sort_insert cmp x l).
Proof.
  intros Htotal Htrans Hsorted.
  induction Hsorted as [|y r Hr IH Hy]; simpl.
  - repeat constructor.
  - destruct (Z.leb_spec (cmp x y) 0) as [Hle|Hgt].
    + constructor; [now constructor |].
      constructor; [exact Hle |].
      apply List.Forall_forall. intros z Hz.
      apply (Htrans y z); simpl; auto.
      rewrite List.Forall_forall in Hy. now apply Hy.
    + constructor.
      * apply IH.
        -- intros z Hz. apply Htotal. now right.
        -- intros z w Hz Hw. apply Htrans; now right.
      * apply List.Forall_forall. intros z Hz.
        apply list_elem_of_In in Hz. rewrite sort_insert_perm in Hz.
        apply list_elem_of_In in Hz. destruct Hz as [<-|Hz].
        -- destruct (Htotal y (or_introl eq_refl)); [lia | assumption].
        -- rewrite List.Forall_forall in Hy. now apply Hy.
Qed.

Lemma array_sort_sorted (l : list A) :
  (forall x y, In x l -> In y l -> cmp x y <= 0 \/ cmp y x <= 0) ->
  (forall x y z, In x l -> In y l -> In z l ->
     cmp x y <= 0 -> cmp y z <= 0 -> cmp x z <= 0) ->
  StronglySorted (fun a b => cmp a b <= 0) (array_sort cmp l).
Proof.
  induction l as [|x r IH]; intros Htotal Htrans; [constructor |].
  change (array_sort cmp (x :: r)) with (sort_insert cmp x (array_sort cmp r)).
  apply sort_insert_sorted.
  - intros y Hy. apply (proj1 (array_sort_In _ _)) in Hy.
    apply Htotal; simpl; auto.
  - intros y z Hy Hz. apply (proj1 (array_sort_In _ _)) in Hy, Hz.
    apply Htrans; simpl; auto.
  - apply IH.
    + intros y z Hy Hz. apply Htotal; now right.
    + intros y z w Hy Hz Hw. apply Htrans; now right.
Qed.

End Sorting.

Section Listing.

Context (P : Platform).

(** What the comparator of [serveDir] says: a directory goes before a
    file, two entries of the same kind go by [localeCompare] of their
    names. *)
Lemma listed_before_iff (a c : Dirent) :
  listed_before P a c <->
  (isDirectory a = true /\ isDirectory c = false) \/
  (isDirectory a = isDirectory c /\ localeCompare P (name a) (name c) <= 0).
Proof.
  unfold listed_before, compare_entries.
  destruct (isDirectory a), (isDirectory c); simpl; split;
    try tauto; try lia; intuition (try discriminate; try lia).
Qed.

Lemma sort_insert_directories_first (x : Dirent) (l : list Dirent) :
  directories_first l = true ->
  directories_first (sort_insert (compare_entries P) x l) = true.
Proof.
  induction l as [|y r IH]; intros Hl.
  - simpl. now destruct (isDirectory x).
  - simpl. destruct (Z.leb_spec (compare_entries P x y) 0) as [Hle|Hgt].
    + change (directories_first (x :: y :: r))
        with (if isDirectory x then directories_first (y :: r)
              else forallb (fun e' => negb (isDirectory e')) (y :: r)).
      destruct (isDirectory x) eqn:Hx; [exact Hl |].
      unfold compare_entries in Hle. rewrite Hx in Hle.
      simpl in Hl |- *. destruct (isDirectory y); simpl in *; [lia | exact Hl].
    + simpl in Hl |- *. destruct (isDirectory y) eqn:Hy; [now apply IH |].
      rewrite sort_insert_forallb, Hl, andb_true_r.
      unfold compare_entries in Hgt. rewrite Hy in Hgt.
      destruct (isDirectory x); simpl in *; [lia | reflexivity].
Qed.

(** A listing shows every entry of the directory once, directories before
    files, whatever [localeCompare] answers. *)
Theorem listing_puts_directories_first (entries : list Dirent) :
  array_sort (compare_entries P) entries ≡ₚ entries /\
  directories_first (array_sort (compare_entries P) entries) = true.
Proof.
  split; [apply array_sort_perm |].
  induction entries as [|x r IH]; [reflexivity |].
  change (array_sort (compare_entries P) (x :: r))
    with (sort_insert (compare_entries P) x (array_sort (compare_entries P) r)).
  now apply sort_insert_directories_first.
Qed.

(** When [localeCompare] is total and transitive on the names of the
    entries, the listing is sorted: every entry may stay in front of all
    the entries after it. *)
Theorem listing_is_sorted (entries : list Dirent) :
  (forall a c, In a entries -> In c entries ->
     localeCompare P (name a) (name c) <= 0 \/
     localeCompare P (name c) (name a) <= 0) ->
  (forall a c d, In a entries -> In c entries -> In d entries ->
     localeCompare P (name a) (name c) <= 0 ->
     localeCompare P (name c) (name d) <= 0 ->
     localeCompare P (name a) (name d) <= 0) ->
  StronglySorted (listed_before P) (array_sort (compare_entries P) entries).
Proof.
  intros Htotal Htrans. apply array_sort_sorted.
  - intros x y Hx Hy. fold (listed_before P x y) (listed_before P y x).
    rewrite !listed_before_iff.
    destruct (Htotal x y Hx Hy) as [H|H];
      destruct (isDirectory x), (isDirectory y); auto.
  - intros x y z Hx Hy Hz.
    fold (listed_before P x y) (listed_before P y z) (listed_before P x z).
    rewrite !listed_before_iff. pose proof (Htrans x y z Hx Hy Hz) as Ht.
    destruct (isDirectory x), (isDirectory y), (isDirectory z);
      intuition (try discriminate; auto).
Qed.

End Listing.

(** The directory [/srv/www/docs] of the sample, listed. *)
Lemma listing_is_sorted_witness :
  StronglySorted (listed_before (node "/"))
    (array_sort (compare_entries (node "/"))
       [{| name := "b.txt"; isDirectory := false |};
        {| name := "a"; isDirectory := true |}]).
Proof.
  apply (listing_is_sorted (node "/")).
  - intros a c Ha Hc. simpl in Ha, Hc.
    destruct Ha as [<-|[<-|[]]], Hc as [<-|[<-|[]]];
      vm_compute; intuition discriminate.
  - intros a c d Ha Hc Hd. simpl in Ha, Hc, Hd.
    destruct Ha as [<-|[<-|[]]], Hc as [<-|[<-|[]]], Hd as [<-|[<-|[]]];
      vm_compute; intuition discriminate.
Defined.

(** ** What the handler does not look at *)

Section Blind.

Context (P : Platform) (fs : FileSystem) (b : build) (env : Closure) (now : Z).

(** Of the request the handler reads the method, the URL and the
    [If-None-Match] header, and nothing else: two requests that agree on
    these three are answered alike, whatever [Range], [If-Modified-Since]
    or [Accept-Encoding] they bring. *)
Theorem other_request_headers_are_ignored (req req' : IncomingMessage) :
  method req' = method req ->
  url req' = url req ->
  headers req' !! "if-none-match" = headers req !! "if-none-match" ->
  handle P fs b env now req' = handle P fs b env now req.
Proof.
  intros Hm Hu Hh. rewrite !handle_resolve, Hm, Hu.
  destruct (resolve P fs env (method req) (url req)) as [pre [t|err]];
    [| reflexivity].
  do 2 f_equal.
  destruct t; simpl; unfold serveDir, serveFile; now rewrite ?Hh.
Qed.

(** An extension outside the switch does not stop the file from being
    served: the only differences are a warning on the console and the
    missing [Content-Type]. *)
Theorem unknown_extension_is_served (req : IncomingMessage)
    (extname : string) (content : Buffer) :
  mime b extname = None ->
  exists h,
    serveFile P b env now req extname content =
      (ConsoleLog ("Unhandled mime-type for ext name: " +:+ extname) ::
       (if not_modified P env req content
        then [WriteHead 304 "Not modified" h; End None]
        else [WriteHead 200 "OK"
                (set_header "Content-Length" (HNumber (byteLength content)) h);
              End (Some (ChunkBuffer content))]),
       Return tt) /\
    get_header "Content-Type" h = None.
Proof.
  intros Hmime. exists (serveFile_headers P b env now extname content).
  rewrite serveFile_trace, serveFile_content_type.
  unfold serveFile_log. now rewrite Hmime.
Qed.

End Blind.

Lemma other_request_headers_are_ignored_witness :
  handle (node "/") (disk sample) IndexJs www 0
    (GET "/a.txt" {[ "range" := "bytes=0-1"; "accept-encoding" := "gzip" ]}) =
  handle (node "/") (disk sample) IndexJs www 0 (GET "/a.txt" ∅).
Proof.
  apply (other_request_headers_are_ignored (node "/") (disk sample) IndexJs
           www 0);
    reflexivity.
Defined.

Lemma unknown_extension_is_served_witness :
  exists h,
    serveFile (node "/") IndexJs www 0 (GET "/photo.JPG" ∅) ".JPG"
      (Buffer_from "jpeg") =
      (ConsoleLog ("Unhandled mime-type for ext name: " +:+ ".JPG") ::
       (if not_modified (node "/") www (GET "/photo.JPG" ∅) (Buffer_from "jpeg")
        then [WriteHead 304 "Not modified" h; End None]
        else [WriteHead 200 "OK"
                (set_header "Content-Length"
                   (HNumber (byteLength (Buffer_from "jpeg"))) h);
              End (Some (ChunkBuffer (Buffer_from "jpeg")))]),
       Return tt) /\
    get_header "Content-Type" h = None.
Proof.
  apply (unknown_extension_is_served (node "/") IndexJs www 0).
  reflexivity.
Defined.

(** ** The two MIME switches *)

(** Every content type [src/index.ts] sends for an extension is the one
    [out/index.js] sends for it, up to the charset parameter the latter
    adds; and the extensions the source build stays silent about are
    [.map] alone. *)
Theorem mime_ts_within_js (extname : string) :
  match mime_ts extname with
  | Some (Some t) => exists params, mime_js extname = Some (Some (t +:+ params))
  | Some None => extname = ".map" /\ mime_js extname = Some None
  | None => True
  end.
Proof.
  by_extension extname ".html"; [now exists "; charset=utf-8" |].
  by_extension extname ".htm"; [now exists "; charset=utf-8" |].
  by_extension extname ".js"; [now exists "; charset=utf-8" |].
  by_extension extname ".css"; [now exists "; charset=utf-8" |].
  by_extension extname ".ttf"; [now exists EmptyString |].
  by_extension extname ".svg"; [now exists EmptyString |].
  by_extension extname ".wasm"; [now exists EmptyString |].
  by_extension extname ".map"; [now split |].
  assert (mime_ts extname = None) as ->; [| exact I].
  unfold mime_ts.
  repeat match goal with
         | H : extname <> ?s |- _ =>
             apply String.eqb_neq in H; rewrite H; clear H
         end.
  reflexivity.
Qed.

(** ** [createServer] *)

(** [createServer] probes the file system once, for the normalized root.
    It throws when that root does not exist, naming the option as given
    ([undefined] when it was left out); otherwise the handler is closed
    over the normalized root, and over the options as given, an [etag] of
    [false] and an [expires] of [0] included: the defaults ([true] and
    5000) only replace options that were left out. *)
Theorem createServer_needs_its_root (P : Platform) (fs : FileSystem)
    (options : IServerOptions) :
  let root :=
    path_normalize P
      (match opt_rootDir options with
       | Some r => r
       | None => process_cwd P
       end) in
  fst (createServer P fs options) = [FsExists root] /\
  match snd (createServer P fs options) with
  | Return env =>
      fs_exists fs root = true /\
      rootDir env = root /\
      useETag env = default true (opt_etag options) /\
      expires env = default 5000 (opt_expires options)
  | Throw err =>
      fs_exists fs root = false /\
      err = interpolate_opt (opt_rootDir options) +:+ " does not "
  end.
Proof.
  unfold createServer, fsExists. cbv zeta. simpl.
  destruct (fs_exists fs _) eqn:E; simpl.
  - destruct (opt_etag options), (opt_expires options); now repeat split.
  - now repeat split.
Qed.

(** * The further properties on the sample site *)

Lemma etag_is_the_hash_of_the_body_witness :
  exists s x h body,
    response_calls
      (fst (handle (node "/") (disk sample) IndexJs www 0 (GET "/docs/" ∅))) =
      [WriteHead s x h; End body] /\
    match s with
    | 200 =>
        exists content,
          body = Some (ChunkBuffer content) /\
          get_header "ETag" h = Some (HString (MD5.md5_hex content))
    | 304 =>
        body = None /\
        exists etag,
          (∅ : gmap string string) !! "if-none-match" = Some etag /\
          get_header "ETag" h = Some (HString etag)
    | _ => get_header "ETag" h = None
    end.
Proof.
  apply (etag_is_the_hash_of_the_body (node "/") (disk sample) IndexJs www 0
           (GET "/docs/" ∅)).
  reflexivity.
Defined.

Lemma no_etag_no_304_witness :
  exists s x h body,
    response_calls
      (fst (handle (node "/") (disk sample) IndexJs www_plain 0
              (GET "/a.txt" {[ "if-none-match" := "5d41402abc4b2a76b9719d911017c592" ]}))) =
      [WriteHead s x h; End body] /\
    s <> 304 /\ get_header "ETag" h = None.
Proof.
  apply (no_etag_no_304 (node "/") (disk sample) IndexJs www_plain 0).
  reflexivity.
Defined.

Lemma redirect_goes_to_a_directory_url_witness :
  exists location,
    response_calls
      (fst (handle (node "/") (disk sample) IndexJs www 0 (GET "/docs" ∅))) =
      redirect_trace location /\
    Posix.isAbsolute location = true /\
    Posix.endsWithSlash location = true /\
    no_backslash location = true.
Proof.
  apply (redirect_goes_to_a_directory_url (node "/") (disk sample) IndexJs
           www 0).
  reflexivity.
Defined.

Lemma other_methods_are_not_found_witness :
  handle (rejecting (node "/")) (disk sample) IndexTs www 0
    {| method := Some "POST"; url := Some "/a.txt"; headers := ∅ |} =
  (not_found_trace "1", Return tt).
Proof.
  apply (other_methods_are_not_found (rejecting (node "/")) (disk sample)
           IndexTs www 0).
  left. simpl. discriminate.
Defined.

Lemma rejected_url_is_500_witness :
  handle (rejecting (node "/")) (disk sample) IndexTs www 0
    (GET "http://%E0%A4%A@host/" ∅) =
  ([ConsoleError "URIError: URI malformed";
    WriteHead 500 "Internal Server Error" [];
    End (Some (ChunkString "Internal Server Error"))],
   Return tt).
Proof.
  apply (rejected_url_is_500 (rejecting (node "/")) (disk sample) IndexTs
           www 0 (GET "http://%E0%A4%A@host/" ∅) "http://%E0%A4%A@host/"
           "URIError: URI malformed");
    reflexivity.
Defined.

Lemma readable_path_is_served_witness :
  handle (node "/") (disk sample) IndexJs www 0 (GET "/a.txt" ∅) =
  ([FsReadFile "/srv/www/a.txt"] ++
   fst (serveFile (node "/") IndexJs www 0 (GET "/a.txt" ∅) ".txt"
          (Buffer_from "hello")),
   Return tt).
Proof.
  apply (readable_path_is_served (node "/") (disk sample) IndexJs www 0
           (GET "/a.txt" ∅) "/a.txt"
           {| pathname := Some "/a.txt"; search := None; hash := None |}
           "/a.txt" (Buffer_from "hello"));
    reflexivity.
Defined.

Lemma missing_path_is_not_found_witness :
  handle (node "/") (disk sample) IndexJs www 0 (GET "/nope.txt" ∅) =
  ([FsReadFile "/srv/www/nope.txt"; FsStat "/srv/www/nope.txt"] ++
   not_found_trace "4",
   Return tt).
Proof.
  apply (missing_path_is_not_found (node "/") (disk sample) IndexJs www 0
           (GET "/nope.txt" ∅) "/nope.txt"
           {| pathname := Some "/nope.txt"; search := None; hash := None |}
           "/nope.txt" "ENOENT");
    first [reflexivity | vm_compute; exact I].
Defined.

Lemma directory_serves_its_index_witness :
  handle (node "/") (disk sample) IndexJs www 0 (GET "/sub/" ∅) =
  ([FsReadFile "/srv/www/sub/"; FsStat "/srv/www/sub/";
    FsReadFile "/srv/www/sub/index.html"] ++
   fst (serveFile (node "/") IndexJs www 0 (GET "/sub/" ∅) ".html"
          (Buffer_from "<p>sub</p>")),
   Return tt).
Proof.
  apply (directory_serves_its_index (node "/") (disk sample) IndexJs www 0
           (GET "/sub/" ∅) "/sub/"
           {| pathname := Some "/sub/"; search := None; hash := None |}
           "/sub/" "EISDIR" {| stats_isDirectory := true |}
           (Buffer_from "<p>sub</p>"));
    reflexivity.
Defined.

Lemma directory_is_listed_witness :
  handle (node "/") (disk sample) IndexJs www 0 (GET "/docs/" ∅) =
  ([FsReadFile "/srv/www/docs/"; FsStat "/srv/www/docs/";
    FsReadFile "/srv/www/docs/index.html"; FsReadDir "/srv/www/docs/"] ++
   fst (serveFile (node "/") IndexJs www 0 (GET "/docs/" ∅) ".html"
          (listing_bytes (node "/") www "/srv/www/docs/"
             [{| name := "b.txt"; isDirectory := false |};
              {| name := "a"; isDirectory := true |}])),
   Return tt).
Proof.
  apply (directory_is_listed (node "/") (disk sample) IndexJs www 0
           (GET "/docs/" ∅) "/docs/"
           {| pathname := Some "/docs/"; search := None; hash := None |}
           "/docs/" "EISDIR" "ENOENT" {| stats_isDirectory := true |});
    reflexivity.
Defined.

Lemma unlistable_directory_is_not_found_witness :
  handle (node "/") (unlistable (disk sample)) IndexJs www 0
    (GET "/docs/" ∅) =
  ([FsReadFile "/srv/www/docs/"; FsStat "/srv/www/docs/";
    FsReadFile "/srv/www/docs/index.html"; FsReadDir "/srv/www/docs/"] ++
   not_found_trace "5",
   Return tt).
Proof.
  apply (unlistable_directory_is_not_found (node "/")
           (unlistable (disk sample)) IndexJs www 0
           (GET "/docs/" ∅) "/docs/"
           {| pathname := Some "/docs/"; search := None; hash := None |}
           "/docs/" "EISDIR" "ENOENT" "EACCES" {| stats_isDirectory := true |});
    reflexivity.
Defined.

Lemma redirect_is_not_repeated_witness :
  statuses
    (fst (handle (node "/") (disk sample) IndexJs www 0 (GET "/sub/" ∅))) <>
  [302].
Proof.
  apply (redirect_is_not_repeated (node "/") (disk sample) IndexJs www 0
           (GET "/sub/" ∅) "/sub/"
           {| pathname := Some "/sub/"; search := None; hash := None |}
           "/srv/www/sub");
    reflexivity.
Defined.

Lemma js_headers_in_spec_witness : In "ETag" spec_headers.
Proof.
  apply (js_headers_in_spec (node "/") (disk sample) www 0 (GET "/a.txt" ∅)
           [("Content-Type", HString "text/plain; charset=utf-8");
            ("Expires", HString "Thu, 01 Jan 1970 00:00:05 GMT");
            ("ETag", HString "5d41402abc4b2a76b9719d911017c592");
            ("Content-Length", HNumber 5)]
           "ETag").
  - vm_compute. now left.
  - vm_compute. tauto.
Defined.

